(** * grequests: the Response wrapper of response.go

    A shallow embedding of [response.go].  A Go method with a pointer
    receiver [r *Response] becomes a function that takes the Response and
    returns the Response it leaves behind together with its result; a Go panic
    is a separate outcome that keeps the state reached when it was raised.
    The collaborators of the file (the response body handed over by net/http,
    [bytes.Buffer], [io.Copy], [os.Create] and the JSON/XML decoders) are
    modelled by what the code can observe of them. *)

From Stdlib Require Import List ZArith Lia Bool String.
From Stdlib Require Import Strings.Byte.
Import ListNotations.
Open Scope Z_scope.

(** ** Errors and panics *)

(** Go [error] values.  A nil error is [None] of [option error]. *)
Inductive error : Type :=
| io_EOF                       (* io.EOF *)
| io_ErrShortWrite             (* io.ErrShortWrite *)
| errReadOnClosedResBody       (* net/http: read on closed response body *)
| ErrOther (msg : string).     (* any other error value *)

Definition error_eqb (a b : error) : bool :=
  match a, b with
  | io_EOF, io_EOF => true
  | io_ErrShortWrite, io_ErrShortWrite => true
  | errReadOnClosedResBody, errReadOnClosedResBody => true
  | ErrOther x, ErrOther y => String.eqb x y
  | _, _ => false
  end.

(** The run-time panics the file can raise. *)
Inductive panic : Type :=
| NilDereference               (* invalid memory address or nil pointer dereference *)
| GrowNegativeCount            (* bytes.Buffer.Grow: negative count *)
| BufferTooLarge.              (* bytes.ErrTooLarge *)

(** ** The response body: an io.ReadCloser

    The body is an io.ReadCloser that response.go does not control.  It is
    described by the results its successive [Read] calls hand out; once
    they are used up every further [Read] reports [io.EOF].  What a [Read]
    after [Close] answers is the body's own business: the body net/http
    hands out for a response with content reports an error of its own
    ([errReadOnClosedResBody]), [http.NoBody] reports [io.EOF], and a body
    whose [Close] does nothing goes on reading.  [bafter_close] is the
    error reported once the body is closed, if there is one.  [breads]
    and [bcloses] count the calls made so far. *)

Definition ReadResult : Type := (list byte * option error)%type.

Record Body : Type := mkBody {
  bscript : list ReadResult;
  bclose_err : option error;    (* what Close returns *)
  bafter_close : option error;  (* what a Read reports after Close *)
  breads : nat;
  bcloses : nat
}.

(** The next result of the script. *)
Definition Body_next (b : Body) : Body * ReadResult :=
  match bscript b with
  | [] => (mkBody [] (bclose_err b) (bafter_close b) (S (breads b)) (bcloses b),
           ([], Some io_EOF))
  | res :: rest =>
      (mkBody rest (bclose_err b) (bafter_close b) (S (breads b)) (bcloses b),
       res)
  end.

Definition Body_Read (b : Body) : Body * ReadResult :=
  match bcloses b with
  | O => Body_next b
  | S _ =>
    match bafter_close b with
    | Some e =>
        (mkBody (bscript b) (bclose_err b) (bafter_close b) (S (breads b))
                (bcloses b),
         ([], Some e))
    | None => Body_next b
    end
  end.

Definition Body_Close (b : Body) : Body * option error :=
  (mkBody (bscript b) (bclose_err b) (bafter_close b) (breads b)
          (S (bcloses b)),
   bclose_err b).

(** ** net/http's Response and Header *)

Definition http_Header : Type := list (string * list string).

Record http_Response : Type := mkHttp {
  http_StatusCode : Z;
  http_Header_of : http_Header;
  http_Body : Body;
  http_ContentLength : Z          (* int64 *)
}.

Definition with_Body (h : http_Response) (b : Body) : http_Response :=
  mkHttp (http_StatusCode h) (http_Header_of h) b (http_ContentLength h).

(** ** bytes.Buffer

    Only the unread portion of a buffer is observable, so a buffer is the
    list of its unread bytes.  A nil bytes.Buffer pointer is [None]. *)

Definition Buffer : Type := list byte.

(** ** type Response struct *)

Record Response : Type := mkResponse {
  Ok : bool;
  Error : option error;
  RawResponse : option http_Response;
  StatusCode : Z;
  Header : http_Header;
  internalByteBuffer : option Buffer
}.

Definition set_RawResponse (r : Response) (h : http_Response) : Response :=
  mkResponse (Ok r) (Error r) (Some h) (StatusCode r) (Header r)
             (internalByteBuffer r).

Definition set_internalByteBuffer (r : Response) (b : option Buffer) : Response :=
  mkResponse (Ok r) (Error r) (RawResponse r) (StatusCode r) (Header r) b.

(** ** Outcomes of a call

    [S] is the state the call works on: the Response, and for
    [DownloadToFile] the destination file as well.  [OutOfFuel] is the
    result of a copy loop started with too little fuel; the loops below are
    always started with enough (lemmas [ReadFrom_loop_total] and
    [copyBuffer_total]). *)

Inductive Outcome (S A : Type) : Type :=
| Returned (s : S) (a : A)
| Panicked (s : S) (p : panic)
| OutOfFuel.
Arguments Returned {S A} s a.
Arguments Panicked {S A} s p.
Arguments OutOfFuel {S A}.

Definition bind {S A B} (c : Outcome S A) (k : S -> A -> Outcome S B)
  : Outcome S B :=
  match c with
  | Returned s a => k s a
  | Panicked s p => Panicked s p
  | OutOfFuel => OutOfFuel
  end.

(** [defer f] around a function body: the deferred call runs when the body
    returns and also when it panics; a panic of the deferred call replaces
    the one in flight, and the value it returns is dropped. *)
Definition defer {S A B} (deferred : S -> Outcome S B) (body : Outcome S A)
  : Outcome S A :=
  match body with
  | Returned s a =>
      match deferred s with
      | Returned s' _ => Returned s' a
      | Panicked s' p => Panicked s' p
      | OutOfFuel => OutOfFuel
      end
  | Panicked s p =>
      match deferred s with
      | Returned s' _ => Panicked s' p
      | Panicked s' p' => Panicked s' p'
      | OutOfFuel => OutOfFuel
      end
  | OutOfFuel => OutOfFuel
  end.

(** [err != nil && err != io.EOF]: the error the callers of io.Copy and of
    the decoders pass on. *)
Definition unless_EOF (err : option error) : option error :=
  match err with
  | Some e => if error_eqb e io_EOF then None else Some e
  | None => None
  end.

(** ** func buildResponse

    The result is a fresh Response, or a panic when [resp] is nil and
    [err] is nil too (the field reads of [resp] dereference it). *)

Definition buildResponse (resp : option http_Response) (err : option error)
  : Response + panic :=
  match err with
  | Some e => inl (mkResponse false (Some e) None 0 [] None)
  | None =>
    match resp with
    | None => inr NilDereference
    | Some h =>
        inl (mkResponse
               ((http_StatusCode h <=? 200) && (http_StatusCode h <? 300))
               None
               (Some h)
               (http_StatusCode h)
               (http_Header_of h)
               None)
    end
  end.

(** ** func (r *Response) Read, Close

    Both go to [r.RawResponse.Body] without a nil check.  The slice passed
    to [Read] does not appear: the results of the body's script are taken
    to fit it. *)

Definition Read (r : Response) : Outcome Response ReadResult :=
  match RawResponse r with
  | None => Panicked r NilDereference
  | Some h =>
      let (b, res) := Body_Read (http_Body h) in
      Returned (set_RawResponse r (with_Body h b)) res
  end.

Definition Close (r : Response) : Outcome Response (option error) :=
  match RawResponse r with
  | None => Panicked r NilDereference
  | Some h =>
      let (b, e) := Body_Close (http_Body h) in
      Returned (set_RawResponse r (with_Body h b)) e
  end.

(** ** func (r *Response) getInternalReader

    The io.Reader returned is either the buffer [r.internalByteBuffer]
    points to or [r] itself. *)

Inductive Reader : Type :=
| ReaderBuffer
| ReaderSelf.

Definition getInternalReader (r : Response) : Reader :=
  match internalByteBuffer r with
  | Some _ => ReaderBuffer
  | None => ReaderSelf
  end.

(** bytes.Buffer.Read with a slice of length [n]: an empty buffer reports
    io.EOF (nothing at all for an empty slice), otherwise up to [n] unread
    bytes are handed out and consumed. *)
Definition Buffer_Read (b : Buffer) (n : nat) : Buffer * ReadResult :=
  match b with
  | [] => ([], ([], match n with O => None | S _ => Some io_EOF end))
  | _ :: _ => (skipn n b, (firstn n b, None))
  end.

Definition Reader_Read (rd : Reader) (n : nat) (r : Response)
  : Outcome Response ReadResult :=
  match rd with
  | ReaderSelf => Read r
  | ReaderBuffer =>
      match internalByteBuffer r with
      | None => Panicked r NilDereference
      | Some b =>
          let (b', res) := Buffer_Read b n in
          Returned (set_internalByteBuffer r (Some b')) res
      end
  end.

(** ** Files: os.Create, File.Write and Close

    A file system answers [os.Create] for a path with an error or with a
    fresh, empty file; [fs_room] bounds the bytes a file can take before a
    write fails ([None]: no bound). *)

Record File : Type := mkFile {
  fname : string;
  fdata : list byte;
  froom : option nat;
  fcloses : nat
}.

Record FileSystem : Type := mkFS {
  fs_create_err : string -> option error;
  fs_room : option nat
}.

Definition os_ErrClosed : error := ErrOther "file already closed"%string.
Definition syscall_ENOSPC : error := ErrOther "no space left on device"%string.

Definition os_Create (fs : FileSystem) (fileName : string) : File + error :=
  match fs_create_err fs fileName with
  | Some e => inr e
  | None => inl (mkFile fileName [] (fs_room fs) 0)
  end.

(** The bytes written, their number and the error. *)
Definition File_Write (f : File) (d : list byte) : File * nat * option error :=
  match fcloses f with
  | S _ => (f, O, Some os_ErrClosed)
  | O =>
    match froom f with
    | None => (mkFile (fname f) (fdata f ++ d) None O, List.length d, None)
    | Some room =>
        if (List.length d <=? room)%nat
        then (mkFile (fname f) (fdata f ++ d) (Some (room - List.length d)%nat) O,
              List.length d, None)
        else (mkFile (fname f) (fdata f ++ firstn room d) (Some O) O,
              room, Some syscall_ENOSPC)
    end
  end.

Definition File_Close (f : File) : File :=
  mkFile (fname f) (fdata f) (froom f) (S (fcloses f)).

(** ** io.Copy

    [io.Copy(dst, src)] hands over to [src.WriteTo(dst)] when the source
    is a bytes.Buffer pointer, to [dst.ReadFrom(src)] when the destination is
    one, and runs its own read/write loop otherwise.  The fuel of the two
    loops is the number of results left in the body's script plus one. *)

Definition copy_fuel (r : Response) : nat :=
  match RawResponse r with
  | Some h => S (List.length (bscript (http_Body h)))
  | None => 1%nat
  end.

(** Buffer.Write on [r.internalByteBuffer]. *)
Definition Buffer_Write (d : list byte) (r : Response)
  : Outcome Response unit :=
  match internalByteBuffer r with
  | None => Panicked r NilDereference
  | Some b => Returned (set_internalByteBuffer r (Some (b ++ d))) tt
  end.

(** Buffer.ReadFrom with [r] as the source: what is read is
    appended, io.EOF ends the loop with a nil error, any other error ends
    it with that error.  The bodies of the model fit in memory: the
    growth of the buffer during the copy succeeds. *)
Fixpoint ReadFrom_loop (fuel : nat) (r : Response)
  : Outcome Response (option error) :=
  match fuel with
  | O => OutOfFuel
  | S fuel' =>
      bind (Read r) (fun r1 res =>
      bind (Buffer_Write (fst res) r1) (fun r2 _ =>
        match snd res with
        | Some e => Returned r2 (unless_EOF (Some e))
        | None => ReadFrom_loop fuel' r2
        end))
  end.

Definition Buffer_ReadFrom (r : Response) : Outcome Response (option error) :=
  ReadFrom_loop (copy_fuel r) r.

(** io.Copy's own loop (io.copyBuffer), from [r] into a file. *)
Fixpoint copyBuffer (fuel : nat) (s : Response * File)
  : Outcome (Response * File) (option error) :=
  match fuel with
  | O => OutOfFuel
  | S fuel' =>
      match Read (fst s) with
      | OutOfFuel => OutOfFuel
      | Panicked r1 p => Panicked (r1, snd s) p
      | Returned r1 (d, er) =>
          let '(fd1, nw, ew) :=
            match d with
            | [] => (snd s, O, None)
            | _ :: _ => File_Write (snd s) d
            end in
          match ew with
          | Some e => Returned (r1, fd1) (Some e)
          | None =>
              if negb (Nat.eqb (List.length d) nw)
              then Returned (r1, fd1) (Some io_ErrShortWrite)
              else
                match er with
                | Some e => Returned (r1, fd1) (unless_EOF (Some e))
                | None => copyBuffer fuel' (r1, fd1)
                end
          end
      end
  end.

(** Buffer.WriteTo with [r.internalByteBuffer] as the source: the
    unread bytes go out in one Write and what was written is consumed. *)
Definition Buffer_WriteTo (s : Response * File)
  : Outcome (Response * File) (option error) :=
  let (r, fd) := s in
  match internalByteBuffer r with
  | None => Panicked s NilDereference
  | Some [] => Returned s None
  | Some ((_ :: _) as b) =>
      let '(fd1, m, e) := File_Write fd b in
      let r1 := set_internalByteBuffer r (Some (skipn m b)) in
      match e with
      | Some e' => Returned (r1, fd1) (Some e')
      | None =>
          if negb (Nat.eqb m (List.length b))
          then Returned (r1, fd1) (Some io_ErrShortWrite)
          else Returned (set_internalByteBuffer r (Some []), fd1) None
      end
  end.

Definition io_Copy_to_File (src : Reader) (s : Response * File)
  : Outcome (Response * File) (option error) :=
  match src with
  | ReaderBuffer => Buffer_WriteTo s
  | ReaderSelf => copyBuffer (copy_fuel (fst s)) s
  end.

(** ** func (r *Response) DownloadToFile

    The state is the Response and the file the call created, if any.  The
    deferred calls run last in, first out: [fd.Close()], then [r.Close()]. *)

Definition lift_Response {A} (c : Outcome Response A) (fd : File)
  : Outcome (Response * File) A :=
  match c with
  | Returned r a => Returned (r, fd) a
  | Panicked r p => Panicked (r, fd) p
  | OutOfFuel => OutOfFuel
  end.

Definition with_File {A} (c : Outcome (Response * File) A)
  : Outcome (Response * option File) A :=
  match c with
  | Returned (r, fd) a => Returned (r, Some fd) a
  | Panicked (r, fd) p => Panicked (r, Some fd) p
  | OutOfFuel => OutOfFuel
  end.

Definition DownloadToFile (fs : FileSystem) (fileName : string) (r : Response)
  : Outcome (Response * option File) (option error) :=
  match os_Create fs fileName with
  | inr err => Returned (r, None) (Some err)
  | inl fd =>
      with_File
        (defer (fun s => lift_Response (Close (fst s)) (snd s))
           (defer (fun s => Returned (fst s, File_Close (snd s)) (@None error))
              (bind (io_Copy_to_File (getInternalReader r) (r, fd))
                    (fun s err => Returned s (unless_EOF err)))))
  end.

(** ** The decoders of encoding/json and encoding/xml

    A decoder reaches the Response only through the io.Reader it was made
    with.  One [Decode] call is therefore a finite strategy: it either
    returns its error, or asks for a [Read] with a slice of some length and
    goes on with what it gets.  The value stored into [userStruct] plays no
    part in what the Response does and is left out. *)

Inductive Decoder : Type :=
| DecReturn (err : option error)
| DecRead (n : nat) (k : list byte -> option error -> Decoder).

Fixpoint Decode (d : Decoder) (rd : Reader) (r : Response)
  : Outcome Response (option error) :=
  match d with
  | DecReturn err => Returned r err
  | DecRead n k =>
      bind (Reader_Read rd n r) (fun r' res => Decode (k (fst res) (snd res)) rd r')
  end.

(** ** func (r *Response) Xml, Json *)

Section Decoding.

(** [XMLCharDecoder] is declared in another file of the package; the
    decoder made by [xml.NewDecoder] depends on whether one was set. *)
Variable XMLCharDecoder : Type.
Variable xml_NewDecoder : option XMLCharDecoder -> Decoder.
Variable json_NewDecoder : Decoder.

Definition Xml (charsetReader : option XMLCharDecoder) (r : Response)
  : Outcome Response (option error) :=
  let rd := getInternalReader r in
  let xmlDecoder := xml_NewDecoder charsetReader in
  defer Close
    (bind (Decode xmlDecoder rd r)
          (fun r' err => Returned r' (unless_EOF err))).

Definition Json (r : Response) : Outcome Response (option error) :=
  let rd := getInternalReader r in
  defer Close
    (bind (Decode json_NewDecoder rd r)
          (fun r' err => Returned r' (unless_EOF err))).

End Decoding.

(** ** func (r *Response) respBytesBuffer *)

(** [int(x)] for an int64 [x], with the 64-bit [int] of the usual
    platforms: the value wrapped into the signed 64-bit range. *)
Definition int_of_int64 (x : Z) : Z :=
  (x + 2 ^ 63) mod 2 ^ 64 - 2 ^ 63.

Section Allocator.

(** How much memory there is decides whether [Buffer.Grow] succeeds:
    [alloc_limit] is the largest count the allocator grants. *)
Variable alloc_limit : Z.

(** Buffer.Grow: a negative count panics, and a count the allocator does
    not grant panics with ErrTooLarge; the capacity gained cannot be
    observed. *)
Definition Buffer_Grow (n : Z) (r : Response) : Outcome Response unit :=
  match internalByteBuffer r with
  | None => Panicked r NilDereference
  | Some _ =>
      if n <? 0 then Panicked r GrowNegativeCount
      else if alloc_limit <? n then Panicked r BufferTooLarge
      else Returned r tt
  end.

Definition respBytesBuffer (r : Response) : Outcome Response (option error) :=
  match internalByteBuffer r with
  | Some _ => Returned r None
  | None =>
      defer Close
        (let r1 := set_internalByteBuffer r (Some []) in
         match RawResponse r1 with
         | None => Panicked r1 NilDereference
         | Some h =>
             bind (Buffer_Grow (int_of_int64 (http_ContentLength h)) r1)
               (fun r2 _ =>
             bind (Buffer_ReadFrom r2)
               (fun r3 err => Returned r3 (unless_EOF err)))
         end)
  end.

(** ** func (r *Response) Bytes, String

    A nil slice and an empty one are both the empty list.  On a nil
    buffer [Buffer.Bytes] dereferences it and [Buffer.String] answers
    the text <nil>. *)

Definition Buffer_Bytes (r : Response) : Outcome Response (list byte) :=
  match internalByteBuffer r with
  | None => Panicked r NilDereference
  | Some b => Returned r b
  end.

Definition Buffer_String (r : Response) : string :=
  match internalByteBuffer r with
  | None => "<nil>"%string
  | Some b => string_of_list_byte b
  end.

Definition Bytes (r : Response) : Outcome Response (list byte) :=
  bind (respBytesBuffer r) (fun r' err =>
    match err with
    | Some _ => Returned r' []
    | None => Buffer_Bytes r'
    end).

Definition String (r : Response) : Outcome Response string :=
  bind (respBytesBuffer r) (fun r' err =>
    match err with
    | Some _ => Returned r' ""%string
    | None => Returned r' (Buffer_String r')
    end).

(** ** func (r *Response) ClearInternalBuffer *)

(** Buffer.Reset on [r.internalByteBuffer]. *)
Definition Buffer_Reset (r : Response) : Outcome Response unit :=
  match internalByteBuffer r with
  | None => Panicked r NilDereference
  | Some _ => Returned (set_internalByteBuffer r (Some [])) tt
  end.

Definition ClearInternalBuffer (r : Response) : Outcome Response unit :=
  bind (Buffer_Reset r) (fun r' _ =>
    Returned (set_internalByteBuffer r' None) tt).

(** ** Observations used in the statements *)

(** The number of [Close] calls the body has seen, when there is one. *)
Definition raw_closes (r : Response) : option nat :=
  option_map (fun h => bcloses (http_Body h)) (RawResponse r).

(** The number of [Read] calls the body has seen. *)
Definition raw_reads (r : Response) : option nat :=
  option_map (fun h => breads (http_Body h)) (RawResponse r).

(** The results the body has still to hand out. *)
Definition raw_script (r : Response) : list ReadResult :=
  match RawResponse r with
  | Some h => bscript (http_Body h)
  | None => []
  end.

(** The results before the failing one carry no error. *)
Definition clean (pre : list ReadResult) : Prop :=
  Forall (fun res => snd res = None) pre.

Definition payload (pre : list ReadResult) : list byte :=
  List.concat (map fst pre).

(** [r] after [nreads] more reads that left [post] in the script, with
    [ncloses] closes of the body and [buf] as buffer. *)
Definition advanced (r : Response) (h : http_Response) (post : list ReadResult)
    (nreads ncloses : nat) (buf : option Buffer) : Response :=
  mkResponse (Ok r) (Error r)
    (Some (with_Body h (mkBody post (bclose_err (http_Body h))
                               (bafter_close (http_Body h))
                               (breads (http_Body h) + nreads) ncloses)))
    (StatusCode r) (Header r) buf.

(** What [Json] and [Xml] pass on of the decoder's error. *)
Definition passed_on (err : option error) : option error :=
  match err with
  | Some io_EOF => None
  | Some e => Some e
  | None => None
  end.

(** The content length the raw response declares. *)
Definition raw_length (r : Response) : option Z :=
  option_map http_ContentLength (RawResponse r).

(** What the raw body reports to a [Read] after [Close]. *)
Definition raw_after_close (r : Response) : option (option error) :=
  option_map (fun h => bafter_close (http_Body h)) (RawResponse r).

(** The Response (and file) a call leaves behind, however it ended. *)
Definition final_state {S A} (c : Outcome S A) : option S :=
  match c with
  | Returned s _ => Some s
  | Panicked s _ => Some s
  | OutOfFuel => None
  end.

(** ** Sample exchanges *)

Definition bytes_of (s : string) : list byte := list_byte_of_string s.

(** Status 200, body hello in two reads, content length 5. *)
Definition hello_body : Body :=
  mkBody [(bytes_of "he"%string, None); (bytes_of "llo"%string, None)] None
         (Some errReadOnClosedResBody) 0 0.

Definition hello_exchange : http_Response := mkHttp 200 [] hello_body 5.

Definition hello_response : Response :=
  mkResponse true None (Some hello_exchange) 200 [] None.

(** [hello_response] once buffered: three reads, the body closed. *)
Definition hello_buffered_exchange : http_Response :=
  mkHttp 200 [] (mkBody [] None (Some errReadOnClosedResBody) 3 1) 5.

Definition hello_buffered : Response :=
  mkResponse true None (Some hello_buffered_exchange) 200 []
             (Some (bytes_of "hello"%string)).

(** The same exchange cut by the peer after two bytes. *)
Definition conn_reset : error := ErrOther "connection reset by peer"%string.

Definition reset_body : Body :=
  mkBody [(bytes_of "he"%string, None); ([], Some conn_reset)] None
         (Some errReadOnClosedResBody) 0 0.

Definition reset_response : Response :=
  mkResponse true None (Some (mkHttp 200 [] reset_body 5)) 200 [] None.

Definition reset_after : Response :=
  mkResponse true None
             (Some (mkHttp 200 [] (mkBody [] None (Some errReadOnClosedResBody)
                                          2 1) 5)) 200 []
             (Some (bytes_of "he"%string)).

(** A chunked response: the content length is not known. *)
Definition chunked_response : Response :=
  mkResponse true None (Some (mkHttp 200 [] hello_body (-1))) 200 [] None.

(** A machine on which [Grow] is granted up to a mebibyte. *)
Definition sample_limit : Z := 2 ^ 20.

(** A file system that creates every file and never runs full. *)
Definition plain_fs : FileSystem := mkFS (fun _ => None) None.

(** [hello_buffered] after a download: the buffer is drained, the body
    closed once more, and the file holds the five bytes. *)
Definition hello_drained : Response :=
  mkResponse true None
             (Some (mkHttp 200 [] (mkBody [] None (Some errReadOnClosedResBody)
                                          3 2) 5)) 200 []
             (Some []).

Definition out_file : File :=
  mkFile "out"%string (bytes_of "hello"%string) None 1.

(** Status 404 with an empty body: a body of the kind of [http.NoBody],
    which reports io.EOF before and after [Close]. *)
Definition not_found_exchange : http_Response :=
  mkHttp 404 [] (mkBody [] None (Some io_EOF) 0 0) 0.

Definition not_found_response : Response :=
  mkResponse false None (Some not_found_exchange) 404 [] None.

Definition not_found_closed_exchange : http_Response :=
  mkHttp 404 [] (mkBody [] None (Some io_EOF) 1 1) 0.

Definition not_found_closed : Response :=
  mkResponse false None (Some not_found_closed_exchange) 404 [] None.

(** The Response of an exchange that failed in transport. *)
Definition failed_response : Response :=
  mkResponse false (Some conn_reset) None 0 [] None.

(** A file system on which no file can be created. *)
Definition permission_denied : error := ErrOther "permission denied"%string.

Definition readonly_fs : FileSystem :=
  mkFS (fun _ => Some permission_denied) None.

(** A decoder that reads once: nothing but io.EOF is passed on, a body
    that does not open with a brace is a syntax error. *)
Definition syntax_error : error := ErrOther "invalid character"%string.

Definition one_read_decoder : Decoder :=
  DecRead 512 (fun d err =>
    match d with
    | [] => DecReturn err
    | c :: _ => if Byte.eqb c "{"%byte then DecReturn None
                else DecReturn (Some syntax_error)
    end).

(** * Properties *)

(** ** Errors *)

Lemma error_eqb_eq (a b : error) : error_eqb a b = true <-> a = b.
Proof.
  destruct a, b; simpl; split; intro H;
    try reflexivity; try discriminate.
  - apply String.eqb_eq in H. now subst.
  - injection H as ->. apply String.eqb_refl.
Qed.

Lemma unless_EOF_EOF : unless_EOF (Some io_EOF) = None.
Proof. reflexivity. Qed.

Lemma unless_EOF_other (e : error) :
  e <> io_EOF -> unless_EOF (Some e) = Some e.
Proof.
  intro H. unfold unless_EOF.
  destruct (error_eqb e io_EOF) eqn:E; [|reflexivity].
  apply error_eqb_eq in E. contradiction.
Qed.

Lemma unless_EOF_never_EOF (err : option error) :
  unless_EOF err <> Some io_EOF.
Proof.
  destruct err as [e|]; simpl; [|discriminate].
  destruct (error_eqb e io_EOF) eqn:E; [discriminate|].
  intro H. injection H as ->. discriminate.
Qed.

Lemma unless_EOF_idem (err : option error) :
  unless_EOF (unless_EOF err) = unless_EOF err.
Proof.
  destruct err as [e|]; simpl; [|reflexivity].
  destruct (error_eqb e io_EOF) eqn:E; simpl; [reflexivity|now rewrite E].
Qed.

(** ** What a call leaves of the raw response *)

Lemma Read_raw (r : Response) (h : http_Response) :
  RawResponse r = Some h ->
  exists r' res,
    Read r = Returned r' res /\
    internalByteBuffer r' = internalByteBuffer r /\
    raw_closes r' = raw_closes r /\
    (exists h', RawResponse r' = Some h') /\
    (snd res = None -> S (List.length (raw_script r')) = List.length (raw_script r)).
Proof.
  intro Hh. unfold Read, raw_closes, raw_script. rewrite Hh.
  unfold Body_Read, Body_next.
  destruct (bcloses (http_Body h)) eqn:Hc;
    [|destruct (bafter_close (http_Body h))];
    destruct (bscript (http_Body h)) as [|res rest] eqn:Hs;
    (eexists _, _; split; [reflexivity|]; simpl; rewrite ?Hc;
     repeat split; eauto; try discriminate).
Qed.

Lemma Close_raw (r : Response) (h : http_Response) :
  RawResponse r = Some h ->
  exists r',
    Close r = Returned r' (bclose_err (http_Body h)) /\
    internalByteBuffer r' = internalByteBuffer r /\
    raw_closes r' = option_map S (raw_closes r) /\
    raw_reads r' = raw_reads r /\
    raw_script r' = raw_script r.
Proof.
  intro Hh. unfold Close, raw_closes, raw_reads, raw_script. rewrite Hh.
  simpl. eexists. split; [reflexivity|]. simpl. repeat split.
Qed.

(** ** The loop of Buffer.ReadFrom ends *)

Lemma ReadFrom_loop_total (fuel : nat) :
  forall (r : Response) (h : http_Response) (b : Buffer),
    RawResponse r = Some h ->
    internalByteBuffer r = Some b ->
    (List.length (raw_script r) < fuel)%nat ->
    exists r' err,
      ReadFrom_loop fuel r = Returned r' err /\
      err <> Some io_EOF /\
      (exists b', internalByteBuffer r' = Some b') /\
      (exists h', RawResponse r' = Some h') /\
      raw_closes r' = raw_closes r.
Proof.
  induction fuel as [|fuel IH]; intros r h b Hh Hb Hlt; [lia|].
  simpl.
  destruct (Read_raw r h Hh) as (r1 & [d er] & HR & Hb1 & Hc1 & [h1 Hh1] & Hlen).
  rewrite HR. simpl.
  unfold Buffer_Write. rewrite Hb1, Hb. simpl.
  set (r2 := set_internalByteBuffer r1 (Some (b ++ d))).
  destruct er as [e|].
  - exists r2, (unless_EOF (Some e)). split; [reflexivity|].
    split; [apply (unless_EOF_never_EOF (Some e))|].
    split; [exists (b ++ d); reflexivity|].
    split; [exists h1; exact Hh1|exact Hc1].
  - specialize (Hlen eq_refl).
    destruct (IH r2 h1 (b ++ d)) as (r' & err & HL & Herr & Hb' & Hh' & Hc');
      [exact Hh1|reflexivity| |].
    + change (raw_script r2) with (raw_script r1). lia.
    + exists r', err. split; [exact HL|]. split; [exact Herr|].
      split; [exact Hb'|]. split; [exact Hh'|].
      rewrite Hc'. exact Hc1.
Qed.

(** ** Buffer.ReadFrom on a body that fails or ends in the middle of its script *)

Lemma ReadFrom_loop_stops (pre : list ReadResult) :
  forall (fuel : nat) (r : Response) (h : http_Response) (b : Buffer)
         (d : list byte) (e : error) (post : list ReadResult),
    RawResponse r = Some h ->
    bcloses (http_Body h) = O ->
    internalByteBuffer r = Some b ->
    bscript (http_Body h) = pre ++ (d, Some e) :: post ->
    clean pre ->
    (List.length pre < fuel)%nat ->
    ReadFrom_loop fuel r =
      Returned (advanced r h post (S (List.length pre)) O
                         (Some (b ++ payload pre ++ d)))
               (unless_EOF (Some e)).
Proof.
  induction pre as [|[d0 e0] pre IH];
    intros fuel r h b d e post Hh Hc Hb Hs Hclean Hlt;
    (destruct fuel as [|fuel]; [simpl in Hlt; lia|]).
  - simpl. unfold Read. rewrite Hh. unfold Body_Read, Body_next. rewrite Hc, Hs.
    simpl. unfold Buffer_Write. simpl. rewrite Hb. simpl.
    unfold advanced, set_internalByteBuffer, set_RawResponse, with_Body.
    simpl. rewrite Nat.add_1_r. reflexivity.
  - inversion Hclean as [|x l He0 Hclean']; subst. simpl in He0. subst e0.
    simpl. unfold Read. rewrite Hh. unfold Body_Read, Body_next. rewrite Hc, Hs.
    simpl. unfold Buffer_Write. simpl. rewrite Hb. simpl.
    erewrite IH; [| reflexivity | reflexivity | reflexivity | reflexivity
                  | exact Hclean' | simpl in Hlt; lia ].
    unfold advanced, set_internalByteBuffer, set_RawResponse, with_Body, payload.
    simpl. rewrite !Nat.add_succ_r, <- ?app_assoc. reflexivity.
Qed.


(** ** respBytesBuffer case by case *)

Lemma respBytesBuffer_buffered (r : Response) (b : Buffer) :
  internalByteBuffer r = Some b -> respBytesBuffer r = Returned r None.
Proof. intro Hb. unfold respBytesBuffer. now rewrite Hb. Qed.

Lemma respBytesBuffer_no_raw (r : Response) :
  internalByteBuffer r = None -> RawResponse r = None ->
  respBytesBuffer r =
    Panicked (set_internalByteBuffer r (Some [])) NilDereference.
Proof.
  intros Hb Hh. unfold respBytesBuffer. rewrite Hb. simpl. rewrite Hh.
  simpl. unfold Close. simpl. now rewrite Hh.
Qed.

Lemma respBytesBuffer_negative (r : Response) (h : http_Response) :
  internalByteBuffer r = None -> RawResponse r = Some h ->
  int_of_int64 (http_ContentLength h) < 0 ->
  exists r',
    respBytesBuffer r = Panicked r' GrowNegativeCount /\
    internalByteBuffer r' = Some [] /\
    raw_closes r' = option_map S (raw_closes r).
Proof.
  intros Hb Hh Hneg. unfold respBytesBuffer. rewrite Hb. simpl. rewrite Hh.
  unfold Buffer_Grow. simpl.
  apply Z.ltb_lt in Hneg. rewrite Hneg. simpl.
  unfold Close. simpl. rewrite Hh. simpl.
  eexists. split; [reflexivity|]. unfold raw_closes. rewrite Hh. now simpl.
Qed.

Lemma respBytesBuffer_too_large (r : Response) (h : http_Response) :
  internalByteBuffer r = None -> RawResponse r = Some h ->
  0 <= int_of_int64 (http_ContentLength h) ->
  alloc_limit < int_of_int64 (http_ContentLength h) ->
  exists r',
    respBytesBuffer r = Panicked r' BufferTooLarge /\
    internalByteBuffer r' = Some [] /\
    raw_closes r' = option_map S (raw_closes r).
Proof.
  intros Hb Hh Hpos Hbig. unfold respBytesBuffer. rewrite Hb. simpl. rewrite Hh.
  unfold Buffer_Grow. simpl.
  destruct (Z.ltb_spec (int_of_int64 (http_ContentLength h)) 0); [lia|].
  destruct (Z.ltb_spec alloc_limit (int_of_int64 (http_ContentLength h)));
    [|lia].
  simpl. unfold Close. simpl. rewrite Hh. simpl.
  eexists. split; [reflexivity|]. unfold raw_closes. rewrite Hh. now simpl.
Qed.

Lemma respBytesBuffer_copies (r : Response) (h : http_Response) :
  internalByteBuffer r = None -> RawResponse r = Some h ->
  0 <= int_of_int64 (http_ContentLength h) <= alloc_limit ->
  exists r3 err r4 b,
    Buffer_ReadFrom (set_internalByteBuffer r (Some [])) = Returned r3 err /\
    (exists ce, Close r3 = Returned r4 ce) /\
    respBytesBuffer r = Returned r4 (unless_EOF err) /\
    unless_EOF err = err /\
    internalByteBuffer r3 = Some b /\
    internalByteBuffer r4 = Some b /\
    raw_closes r4 = option_map S (raw_closes r).
Proof.
  intros Hb Hh Hpos. unfold respBytesBuffer. rewrite Hb. simpl. rewrite Hh.
  unfold Buffer_Grow. simpl.
  destruct (Z.ltb_spec (int_of_int64 (http_ContentLength h)) 0); [lia|].
  destruct (Z.ltb_spec alloc_limit (int_of_int64 (http_ContentLength h)));
    [lia|].
  simpl.
  set (r1 := set_internalByteBuffer r (Some [])).
  destruct (ReadFrom_loop_total (copy_fuel r1) r1 h [] Hh eq_refl)
    as (r3 & err & HL & Herr & [b Hb3] & [h3 Hh3] & Hc3).
  { unfold copy_fuel, raw_script. simpl. rewrite Hh. lia. }
  unfold Buffer_ReadFrom. rewrite HL. simpl.
  destruct (Close_raw r3 h3 Hh3) as (r4 & HC & Hb4 & Hc4 & _).
  rewrite HC.
  exists r3, err, r4, b. split; [reflexivity|].
  split; [eexists; exact HC|]. split; [reflexivity|].
  split.
  { destruct err as [e|]; [|reflexivity]. apply unless_EOF_other.
    intros ->. now apply Herr. }
  split; [exact Hb3|]. split; [now rewrite Hb4|].
  rewrite Hc4, Hc3. reflexivity.
Qed.

Lemma respBytesBuffer_cases (r : Response) :
  (exists r' err b,
     respBytesBuffer r = Returned r' err /\ internalByteBuffer r' = Some b) \/
  (exists r' p, respBytesBuffer r = Panicked r' p).
Proof.
  destruct (internalByteBuffer r) as [b|] eqn:Hb.
  - left. exists r, None, b. split; [now apply respBytesBuffer_buffered with b|exact Hb].
  - destruct (RawResponse r) as [h|] eqn:Hh.
    + destruct (Z_lt_ge_dec (int_of_int64 (http_ContentLength h)) 0) as [Hneg|Hpos].
      * destruct (respBytesBuffer_negative r h Hb Hh Hneg) as (r' & HP & _).
        right. now exists r', GrowNegativeCount.
      * destruct (Z_lt_ge_dec alloc_limit (int_of_int64 (http_ContentLength h)))
          as [Hbig|Hfits].
        -- destruct (respBytesBuffer_too_large r h Hb Hh) as (r' & HP & _);
             [lia|exact Hbig|].
           right. now exists r', BufferTooLarge.
        -- destruct (respBytesBuffer_copies r h Hb Hh) as
               (r3 & err & r4 & b & _ & _ & HR & _ & _ & Hb4 & _); [lia|].
           left. now exists r4, (unless_EOF err), b.
    + right. eexists _, _. now apply respBytesBuffer_no_raw.
Qed.

Lemma int_of_int64_in_range (x : Z) :
  - 2 ^ 63 <= x < 2 ^ 63 -> int_of_int64 x = x.
Proof.
  intro H. unfold int_of_int64. rewrite Z.mod_small; lia.
Qed.


(** ** The sample exchanges, run *)

Example buildResponse_hello :
  buildResponse (Some hello_exchange) None = inl hello_response.
Proof. reflexivity. Qed.

Example buildResponse_not_found :
  buildResponse (Some not_found_exchange) None = inl not_found_response.
Proof. reflexivity. Qed.

Example Json_empty_body_is_no_error :
  Json one_read_decoder not_found_response = Returned not_found_closed None.
Proof. vm_compute. reflexivity. Qed.

Example Json_malformed_body :
  match Json one_read_decoder hello_response with
  | Returned r err => err = Some syntax_error /\ raw_closes r = Some 1%nat
  | _ => False
  end.
Proof. vm_compute. split; reflexivity. Qed.

Example ClearInternalBuffer_buffered :
  ClearInternalBuffer hello_buffered =
    Returned (set_internalByteBuffer hello_buffered None) tt.
Proof. reflexivity. Qed.

(** ** The claims *)

(** C1 (the code departs from its own comment).  The flag [Ok] is computed
    as [StatusCode <= 200 && StatusCode < 300]: it is true exactly for the
    codes up to 200.  So an exchange answered 100 is reported as a
    success and one answered 201 is not, although the field is documented as
    telling that the server returned a 2xx code. *)
Theorem buildResponse_Ok_is_at_most_200 :
  (forall h, exists r,
      buildResponse (Some h) None = inl r /\
      Ok r = (http_StatusCode h <=? 200)) /\
  (forall hd b cl, exists r,
      buildResponse (Some (mkHttp 100 hd b cl)) None = inl r /\ Ok r = true) /\
  (forall hd b cl, exists r,
      buildResponse (Some (mkHttp 201 hd b cl)) None = inl r /\ Ok r = false).
Proof.
  split; [|split].
  - intro h. eexists. split; [reflexivity|]. simpl.
    destruct (http_StatusCode h <=? 200) eqn:E; simpl; [|reflexivity].
    apply Z.leb_le in E. apply Z.ltb_lt. lia.
  - intros hd b cl. eexists. split; reflexivity.
  - intros hd b cl. eexists. split; reflexivity.
Qed.

(** C5.  When the transport error is not nil, [buildResponse] yields a
    Response that carries this error and nothing else: the flag [Ok] is
    false, the status code is zero, the header mapping is empty, there is
    no raw response (hence no stream) and no internal buffer. *)
Theorem buildResponse_with_error_is_blank
    (resp : option http_Response) (e : error) :
  exists r,
    buildResponse resp (Some e) = inl r /\
    Error r = Some e /\
    Ok r = false /\
    StatusCode r = 0 /\
    Header r = [] /\
    RawResponse r = None /\
    internalByteBuffer r = None.
Proof.
  eexists. split; [reflexivity|]. repeat split.
Qed.

(** C10.  On a Response built from a transport error the raw response is
    nil, and both pass-through methods [Read] and [Close] panic with a nil
    dereference instead of returning an error. *)
Theorem Read_Close_after_transport_error_panic
    (resp : option http_Response) (e : error) :
  exists r,
    buildResponse resp (Some e) = inl r /\
    Read r = Panicked r NilDereference /\
    Close r = Panicked r NilDereference.
Proof.
  eexists. split; [reflexivity|]. split; reflexivity.
Qed.

(** C3 (code defect).  [ClearInternalBuffer] calls [Reset] on
    [r.internalByteBuffer] without the nil check its siblings
    [getInternalReader] and [respBytesBuffer] make: on a Response whose
    buffer was never created, such as any Response fresh from
    [buildResponse], it panics with a nil dereference and is no guarded
    no-op. *)
Theorem ClearInternalBuffer_without_buffer_panics (h : http_Response) :
  exists r,
    buildResponse (Some h) None = inl r /\
    internalByteBuffer r = None /\
    ClearInternalBuffer r = Panicked r NilDereference.
Proof.
  eexists. split; [reflexivity|]. split; reflexivity.
Qed.

(** C4.  [respBytesBuffer] is idempotent: when a call has returned a nil
    error, the Response it leaves holds a buffer, and a second call returns
    a nil error again and leaves that Response exactly as it found it: the
    same buffer contents, and no further [Read] of the raw stream (the
    count [breads] of the body is part of the Response). *)
Theorem respBytesBuffer_idempotent (r r' : Response) :
  respBytesBuffer r = Returned r' None ->
  (exists b, internalByteBuffer r' = Some b) /\
  respBytesBuffer r' = Returned r' None.
Proof.
  intro H.
  assert (Hb : exists b, internalByteBuffer r' = Some b).
  { destruct (respBytesBuffer_cases r) as [(r1 & err & b & HR & Hb)|(r1 & p & HP)].
    - rewrite HR in H. injection H as <- _. now exists b.
    - rewrite HP in H. discriminate. }
  destruct Hb as [b Hb].
  split; [now exists b|].
  exact (respBytesBuffer_buffered r' b Hb).
Qed.

(** C6.  [Bytes] and [String] swallow the error of [respBytesBuffer]: when
    it returns an error they return an empty slice and the empty string;
    when it returns nil they return the contents of the buffer, as bytes
    and as text.  A panic of [respBytesBuffer] is the only other outcome,
    and it goes through. *)
Theorem Bytes_String_swallow_the_error (r : Response) :
  match respBytesBuffer r with
  | Returned r' (Some _) =>
      Bytes r = Returned r' [] /\ String r = Returned r' ""%string
  | Returned r' None =>
      exists b,
        internalByteBuffer r' = Some b /\
        Bytes r = Returned r' b /\
        String r = Returned r' (string_of_list_byte b)
  | Panicked r' p =>
      Bytes r = Panicked r' p /\ String r = Panicked r' p
  | OutOfFuel => False
  end.
Proof.
  unfold Bytes, String.
  destruct (respBytesBuffer_cases r) as [(r' & err & b & HR & Hb)|(r' & p & HP)].
  - rewrite HR. destruct err as [e|]; simpl.
    + split; reflexivity.
    + exists b. unfold Buffer_Bytes, Buffer_String. rewrite Hb.
      repeat split.
  - rewrite HP. simpl. split; reflexivity.
Qed.

(** C9.  When the exchange declared a negative content length (unknown
    length, as for a chunked response) and the Response has no internal
    buffer yet, [respBytesBuffer] panics, and so do [Bytes] and [String]:
    the declared length goes to [Buffer.Grow] as it is, and [Grow] panics
    on a negative count. *)
Theorem negative_ContentLength_panics (r : Response) (h : http_Response) :
  internalByteBuffer r = None ->
  RawResponse r = Some h ->
  - 2 ^ 63 <= http_ContentLength h < 0 ->
  exists r',
    respBytesBuffer r = Panicked r' GrowNegativeCount /\
    Bytes r = Panicked r' GrowNegativeCount /\
    String r = Panicked r' GrowNegativeCount.
Proof.
  intros Hb Hh Hcl.
  destruct (respBytesBuffer_negative r h Hb Hh) as (r' & HP & _).
  { rewrite int_of_int64_in_range; lia. }
  exists r'. unfold Bytes, String. rewrite HP. repeat split.
Qed.

(** C2 (as the code has it).  When a [Read] of the raw stream fails in the
    middle of the copy (the declared length being one that [Grow] is
    granted), [respBytesBuffer] returns that error, but the bytes
    captured before the failure are kept: the internal buffer is left in
    place holding them, the body is closed, and a second call returns a nil
    error without reading, so that [Bytes] then hands out the partial
    data. *)
Theorem respBytesBuffer_failure_keeps_partial
    (r : Response) (h : http_Response)
    (pre : list ReadResult) (d : list byte) (e : error)
    (post : list ReadResult) :
  internalByteBuffer r = None ->
  RawResponse r = Some h ->
  0 <= http_ContentLength h < 2 ^ 63 ->
  http_ContentLength h <= alloc_limit ->
  bcloses (http_Body h) = O ->
  bscript (http_Body h) = pre ++ (d, Some e) :: post ->
  clean pre ->
  e <> io_EOF ->
  let r' := advanced r h post (S (List.length pre)) 1 (Some (payload pre ++ d)) in
  respBytesBuffer r = Returned r' (Some e) /\
  respBytesBuffer r' = Returned r' None /\
  Bytes r' = Returned r' (payload pre ++ d).
Proof.
  intros Hb Hh Hcl Hfits Hc Hs Hclean He r'.
  assert (H2 : respBytesBuffer r' = Returned r' None)
    by (now apply respBytesBuffer_buffered with (payload pre ++ d)).
  split; [|split; [exact H2|]].
  - unfold respBytesBuffer. rewrite Hb. simpl. rewrite Hh.
    unfold Buffer_Grow. simpl.
    rewrite int_of_int64_in_range by lia.
    destruct (Z.ltb_spec (http_ContentLength h) 0) as [Hneg|_]; [lia|].
    destruct (Z.ltb_spec alloc_limit (http_ContentLength h)) as [Hbig|_];
      [lia|].
    simpl. unfold Buffer_ReadFrom.
    rewrite (ReadFrom_loop_stops pre _ _ h [] d e post); try assumption;
      try reflexivity.
    + rewrite (unless_EOF_other e He). cbn [bind].
      rewrite (unless_EOF_other e He). unfold Close, defer. simpl.
      unfold r', advanced, set_RawResponse, with_Body. simpl.
      reflexivity.
    + unfold copy_fuel. simpl. rewrite Hh, Hs, length_app. simpl. lia.
  - unfold Bytes. rewrite H2. reflexivity.
Qed.

(** ** Decoding *)

(** With a raw response in place a [Decode] call always returns: the reader
    chosen by [getInternalReader] stays readable, and the decoder neither
    closes the body nor creates or drops the buffer. *)
Lemma Decode_total (d : Decoder) :
  forall (r : Response) (h : http_Response),
    RawResponse r = Some h ->
    exists r1 err h1,
      Decode d (getInternalReader r) r = Returned r1 err /\
      RawResponse r1 = Some h1 /\
      raw_closes r1 = raw_closes r /\
      getInternalReader r1 = getInternalReader r.
Proof.
  induction d as [err|n k IH]; intros r h Hh.
  - exists r, err, h. simpl. repeat split; assumption.
  - destruct (internalByteBuffer r) as [b|] eqn:Hb.
    + assert (Hg : getInternalReader r = ReaderBuffer)
        by (unfold getInternalReader; now rewrite Hb).
      rewrite Hg. simpl. rewrite Hb.
      destruct (Buffer_Read b n) as [b' res] eqn:HB. simpl.
      set (r' := set_internalByteBuffer r (Some b')).
      destruct (IH (fst res) (snd res) r' h Hh)
        as (r1 & err & h1 & HD & Hh1 & Hc1 & Hg1).
      change (getInternalReader r') with ReaderBuffer in HD, Hg1.
      exists r1, err, h1. split; [exact HD|]. split; [exact Hh1|].
      split; [exact Hc1|exact Hg1].
    + assert (Hg : getInternalReader r = ReaderSelf)
        by (unfold getInternalReader; now rewrite Hb).
      rewrite Hg. simpl.
      destruct (Read_raw r h Hh) as (r' & res & HR & Hb' & Hc' & [h' Hh'] & _).
      rewrite HR. simpl.
      assert (Hg' : getInternalReader r' = ReaderSelf)
        by (unfold getInternalReader; now rewrite Hb', Hb).
      destruct (IH (fst res) (snd res) r' h' Hh')
        as (r1 & err & h1 & HD & Hh1 & Hc1 & Hg1).
      rewrite Hg' in HD, Hg1.
      exists r1, err, h1. split; [exact HD|]. split; [exact Hh1|].
      split; [now rewrite Hc1|exact Hg1].
Qed.

Lemma unless_EOF_passed_on (err : option error) :
  unless_EOF err = passed_on err.
Proof. destruct err as [[]|]; reflexivity. Qed.

Lemma decode_then_Close (c : Outcome Response (option error))
    (r : Response) (h : http_Response) :
  RawResponse r = Some h ->
  forall r1 err h1,
    c = Returned r1 err ->
    RawResponse r1 = Some h1 ->
    raw_closes r1 = raw_closes r ->
    exists r2 ce,
      Close r1 = Returned r2 ce /\
      defer Close (bind c (fun r' err' => Returned r' (unless_EOF err'))) =
        Returned r2 (passed_on err) /\
      raw_closes r2 = option_map S (raw_closes r).
Proof.
  intros Hh r1 err h1 -> Hh1 Hc1.
  destruct (Close_raw r1 h1 Hh1) as (r2 & HC & _ & Hc2 & _).
  exists r2, (bclose_err (http_Body h1)). split; [exact HC|].
  simpl. rewrite HC, unless_EOF_passed_on. split; [reflexivity|].
  now rewrite Hc2, Hc1.
Qed.

(** Without a raw response there is nothing to decode or to close: the
    call panics, in the first [Read] or in the deferred [Close]. *)
Lemma Json_without_raw_panics (d : Decoder) (r : Response) :
  RawResponse r = None -> internalByteBuffer r = None ->
  Json d r = Panicked r NilDereference.
Proof.
  intros Hh Hb. unfold Json, getInternalReader. rewrite Hb.
  destruct d as [err|n k]; simpl; unfold Read, Close; rewrite Hh; simpl;
    try rewrite Hh; reflexivity.
Qed.

(** C7 (as the code has it).  On a Response that holds a raw response,
    one not built from a transport error, [Json] and [Xml] run the
    decoder on the internal reader and then close the raw body, whatever
    the decoder returned: io.EOF from the decoder becomes a nil error, any
    other error of the decoder is returned as it is, and the body has
    seen exactly one more [Close] when the call is over. *)
Theorem Json_Xml_pass_errors_and_close
    (XMLCharDecoder : Type)
    (xml_NewDecoder : option XMLCharDecoder -> Decoder)
    (json_NewDecoder : Decoder)
    (charsetReader : option XMLCharDecoder)
    (r : Response) (h : http_Response) :
  RawResponse r = Some h ->
  (exists r1 err r2 ce,
      Decode json_NewDecoder (getInternalReader r) r = Returned r1 err /\
      Close r1 = Returned r2 ce /\
      Json json_NewDecoder r = Returned r2 (passed_on err) /\
      raw_closes r2 = option_map S (raw_closes r)) /\
  (exists r1 err r2 ce,
      Decode (xml_NewDecoder charsetReader) (getInternalReader r) r
        = Returned r1 err /\
      Close r1 = Returned r2 ce /\
      Xml XMLCharDecoder xml_NewDecoder charsetReader r
        = Returned r2 (passed_on err) /\
      raw_closes r2 = option_map S (raw_closes r)).
Proof.
  intro Hh. split.
  - destruct (Decode_total json_NewDecoder r h Hh)
      as (r1 & err & h1 & HD & Hh1 & Hc1 & _).
    destruct (decode_then_Close _ r h Hh r1 err h1 HD Hh1 Hc1)
      as (r2 & ce & HC & HJ & Hc2).
    exists r1, err, r2, ce. repeat split; assumption.
  - destruct (Decode_total (xml_NewDecoder charsetReader) r h Hh)
      as (r1 & err & h1 & HD & Hh1 & Hc1 & _).
    destruct (decode_then_Close _ r h Hh r1 err h1 HD Hh1 Hc1)
      as (r2 & ce & HC & HJ & Hc2).
    exists r1, err, r2, ce. repeat split; assumption.
Qed.

Lemma Json_Xml_pass_errors_and_close_hello :
  (exists r1 err r2 ce,
      Decode one_read_decoder (getInternalReader hello_response) hello_response
        = Returned r1 err /\
      Close r1 = Returned r2 ce /\
      Json one_read_decoder hello_response = Returned r2 (passed_on err) /\
      raw_closes r2 = option_map S (raw_closes hello_response)) /\
  (exists r1 err r2 ce,
      Decode one_read_decoder (getInternalReader hello_response) hello_response
        = Returned r1 err /\
      Close r1 = Returned r2 ce /\
      Xml unit (fun _ => one_read_decoder) None hello_response
        = Returned r2 (passed_on err) /\
      raw_closes r2 = option_map S (raw_closes hello_response)).
Proof.
  apply (Json_Xml_pass_errors_and_close
           unit (fun _ => one_read_decoder) one_read_decoder None
           hello_response hello_exchange).
  reflexivity.
Defined.

(** C7, the claim as stated fails: on the Response of an exchange that
    failed in transport there is no raw response, and [Json] and [Xml]
    panic with a nil dereference instead of returning nil or an error and
    closing anything. *)
Lemma Json_Xml_panic_without_raw_response :
  buildResponse None (Some conn_reset) = inl failed_response /\
  Json one_read_decoder failed_response
    = Panicked failed_response NilDereference /\
  Xml unit (fun _ => one_read_decoder) None failed_response
    = Panicked failed_response NilDereference.
Proof.
  split; [reflexivity|]. split; reflexivity.
Qed.

(** ** Copying into a file *)

Lemma File_Write_spec (f : File) (d : list byte) :
  forall f' n e,
    File_Write f d = (f', n, e) ->
    fcloses f' = fcloses f /\
    e <> Some io_EOF /\
    (e = None -> n = List.length d) /\
    (fcloses f = O -> fdata f' = fdata f ++ firstn n d).
Proof.
  intros f' n e. unfold File_Write.
  destruct (fcloses f) as [|c] eqn:Hc.
  - destruct (froom f) as [room|].
    + destruct (List.length d <=? room)%nat eqn:Hle; intro H;
        injection H as <- <- <-; simpl.
      * repeat split; try discriminate. now rewrite firstn_all.
      * repeat split; discriminate.
    + intro H. injection H as <- <- <-. simpl.
      repeat split; try discriminate. now rewrite firstn_all.
  - intro H. injection H as <- <- <-. repeat split; try discriminate.
    exact Hc.
Qed.

(** io.Copy's loop ends and returns when there is a raw response; it
    leaves the buffer alone and closes nothing. *)
Lemma copyBuffer_total (fuel : nat) :
  forall (r : Response) (fd : File) (h : http_Response),
    RawResponse r = Some h ->
    (List.length (raw_script r) < fuel)%nat ->
    exists r' fd' err h',
      copyBuffer fuel (r, fd) = Returned (r', fd') err /\
      err <> Some io_EOF /\
      internalByteBuffer r' = internalByteBuffer r /\
      RawResponse r' = Some h' /\
      raw_closes r' = raw_closes r /\
      fcloses fd' = fcloses fd.
Proof.
  induction fuel as [|fuel IH]; intros r fd h Hh Hlt; [lia|].
  simpl.
  destruct (Read_raw r h Hh) as (r1 & [d er] & HR & Hb1 & Hc1 & [h1 Hh1] & Hlen).
  rewrite HR.
  assert (HW : exists fd1 nw ew,
             match d with
             | [] => (fd, O, None)
             | _ :: _ => File_Write fd d
             end = (fd1, nw, ew) /\
             fcloses fd1 = fcloses fd /\ ew <> Some io_EOF).
  { destruct d as [|c d'].
    - exists fd, O, None. repeat split. discriminate.
    - destruct (File_Write fd (c :: d')) as [[fd1 nw] ew] eqn:HW.
      destruct (File_Write_spec _ _ _ _ _ HW) as (Hfc & He & _).
      now exists fd1, nw, ew. }
  destruct HW as (fd1 & nw & ew & -> & Hfc & Hew).
  destruct ew as [e|].
  { exists r1, fd1, (Some e), h1. repeat split; assumption. }
  destruct (negb (Nat.eqb (List.length d) nw)).
  { exists r1, fd1, (Some io_ErrShortWrite), h1.
    repeat split; try assumption. discriminate. }
  destruct er as [e|].
  { exists r1, fd1, (unless_EOF (Some e)), h1.
    repeat split; try assumption. apply unless_EOF_never_EOF. }
  specialize (Hlen eq_refl).
  destruct (IH r1 fd1 h1 Hh1) as (r' & fd' & err & h' & HL & He & Hb' & Hh' & Hc' & Hf');
    [lia|].
  exists r', fd', err, h'. split; [exact HL|]. split; [exact He|].
  split; [now rewrite Hb'|]. split; [exact Hh'|].
  split; [now rewrite Hc'|now rewrite Hf'].
Qed.

(** A body that runs to its end without an error, into a file that takes
    everything: the copy returns nil and the file holds the payload. *)
Lemma copyBuffer_ends (pre : list ReadResult) :
  forall (fuel : nat) (r : Response) (fd : File) (h : http_Response),
    RawResponse r = Some h ->
    bcloses (http_Body h) = O ->
    bscript (http_Body h) = pre ->
    clean pre ->
    froom fd = None ->
    fcloses fd = O ->
    (List.length pre < fuel)%nat ->
    copyBuffer fuel (r, fd) =
      Returned (advanced r h [] (S (List.length pre)) O (internalByteBuffer r),
                mkFile (fname fd) (fdata fd ++ payload pre) None O)
               None.
Proof.
  induction pre as [|[d0 e0] pre IH];
    intros fuel r [nm dat room cl] h Hh Hc Hs Hclean Hroom Hcl Hlt;
    simpl in Hroom, Hcl; subst room cl;
    (destruct fuel as [|fuel]; [simpl in Hlt; lia|]).
  - simpl. unfold Read. rewrite Hh. unfold Body_Read, Body_next. rewrite Hc, Hs.
    simpl. unfold advanced, set_RawResponse, with_Body, payload. simpl.
    rewrite Nat.add_1_r, app_nil_r. reflexivity.
  - inversion Hclean as [|x l He0 Hclean']; subst. simpl in He0. subst e0.
    cbn [copyBuffer fst snd]. unfold Read. rewrite Hh.
    unfold Body_Read, Body_next. rewrite Hc, Hs.
    cbn [http_Body with_Body bscript bclose_err breads bcloses].
    destruct d0 as [|c d'].
    + cbn [negb Nat.eqb List.length].
      erewrite IH; [| reflexivity | reflexivity | reflexivity | exact Hclean'
                    | reflexivity | reflexivity | simpl in Hlt; lia ].
      unfold advanced, set_RawResponse, with_Body, payload. simpl.
      rewrite !Nat.add_succ_r. reflexivity.
    + unfold File_Write. cbn [fcloses froom fname fdata].
      rewrite Nat.eqb_refl. cbn [negb].
      erewrite IH; [| reflexivity | reflexivity | reflexivity | exact Hclean'
                    | reflexivity | reflexivity | simpl in Hlt; lia ].
      unfold advanced, set_RawResponse, with_Body, payload. simpl.
      rewrite !Nat.add_succ_r, <- ?app_assoc. reflexivity.
Qed.

(** Buffer.WriteTo hands the unread bytes to the file and consumes what
    was written. *)
Lemma Buffer_WriteTo_spec (r : Response) (fd : File) (b : Buffer) :
  internalByteBuffer r = Some b ->
  fcloses fd = O ->
  exists r' fd' err rest,
    Buffer_WriteTo (r, fd) = Returned (r', fd') err /\
    err <> Some io_EOF /\
    internalByteBuffer r' = Some rest /\
    fdata fd ++ b = fdata fd' ++ rest /\
    (err = None -> rest = []) /\
    RawResponse r' = RawResponse r /\
    fcloses fd' = O.
Proof.
  intros Hb Hc. unfold Buffer_WriteTo. rewrite Hb.
  destruct b as [|c b'].
  - exists r, fd, None, []. repeat split; try assumption. discriminate.
  - destruct (File_Write fd (c :: b')) as [[fd1 m] e] eqn:HW.
    destruct (File_Write_spec _ _ _ _ _ HW) as (Hfc & He & Hn & Hd).
    specialize (Hd Hc).
    destruct e as [e'|].
    + exists (set_internalByteBuffer r (Some (skipn m (c :: b')))), fd1,
             (Some e'), (skipn m (c :: b')).
      split; [reflexivity|]. split; [exact He|]. split; [reflexivity|].
      split; [rewrite Hd, <- app_assoc, firstn_skipn; reflexivity|].
      split; [discriminate|]. split; [reflexivity|]. now rewrite Hfc.
    + rewrite (Hn eq_refl) in *. rewrite Nat.eqb_refl. simpl.
      exists (set_internalByteBuffer r (Some [])), fd1, None, [].
      split; [reflexivity|]. split; [discriminate|]. split; [reflexivity|].
      split; [rewrite Hd, firstn_all, app_nil_r; reflexivity|].
      split; [reflexivity|]. split; [reflexivity|]. now rewrite Hfc.
Qed.

(** C8 (as the code has it).  On a Response that holds a raw response, and
    once [os.Create] has succeeded, [DownloadToFile] always returns, never
    with io.EOF as its error, and on that return the raw body has seen
    one more [Close] and the file has been closed, whether the copy went
    through or failed.  It never creates the internal buffer; but when
    the Response has one, the copy reads from it and consumes it: the
    buffer is left with the bytes that were not written, none after a
    successful copy.  A raw body that runs to its end without an error is
    copied whole and the result is nil. *)
Theorem DownloadToFile_closes_both_and_consumes
    (fs : FileSystem) (fileName : string)
    (r : Response) (h : http_Response) :
  RawResponse r = Some h ->
  fs_create_err fs fileName = None ->
  exists r' fd' err,
    DownloadToFile fs fileName r = Returned (r', Some fd') err /\
    err <> Some io_EOF /\
    raw_closes r' = option_map S (raw_closes r) /\
    fcloses fd' = 1%nat /\
    (internalByteBuffer r = None -> internalByteBuffer r' = None) /\
    (forall b, internalByteBuffer r = Some b ->
               exists rest,
                 internalByteBuffer r' = Some rest /\
                 b = fdata fd' ++ rest /\
                 (err = None -> rest = [])) /\
    (internalByteBuffer r = None ->
     bcloses (http_Body h) = O ->
     clean (bscript (http_Body h)) ->
     fs_room fs = None ->
     err = None /\ fdata fd' = payload (bscript (http_Body h))).
Proof.
  intros Hh Hcreate. unfold DownloadToFile, os_Create. rewrite Hcreate.
  set (fd := mkFile fileName [] (fs_room fs) 0).
  destruct (internalByteBuffer r) as [b|] eqn:Hb.
  - assert (Hg : getInternalReader r = ReaderBuffer)
      by (unfold getInternalReader; now rewrite Hb).
    rewrite Hg. cbn [io_Copy_to_File].
    destruct (Buffer_WriteTo_spec r fd b Hb eq_refl)
      as (r1 & fd1 & err & rest & HW & He & Hb1 & Hd & Hrest & Hh1 & Hf1).
    rewrite HW. cbn [bind defer fst snd lift_Response].
    rewrite Hh in Hh1.
    destruct (Close_raw r1 h Hh1) as (r2 & HC & Hb2 & Hc2 & _).
    rewrite HC. cbn [lift_Response with_File].
    exists r2, (File_Close fd1), (unless_EOF err).
    split; [reflexivity|]. split; [apply unless_EOF_never_EOF|].
    split.
    { rewrite Hc2. unfold raw_closes. now rewrite Hh1, Hh. }
    split; [simpl; now rewrite Hf1|].
    split; [discriminate|].
    split; [|discriminate].
    intros b0 E. injection E as <-. exists rest.
    split; [now rewrite Hb2|]. split; [exact Hd|].
    intro E. apply Hrest. destruct err as [e|]; [|reflexivity].
    rewrite unless_EOF_other in E; [discriminate|].
    intros ->. now apply He.
  - assert (Hg : getInternalReader r = ReaderSelf)
      by (unfold getInternalReader; now rewrite Hb).
    rewrite Hg. cbn [io_Copy_to_File fst].
    destruct (copyBuffer_total (copy_fuel r) r fd h Hh)
      as (r1 & fd1 & err & h1 & HL & He & Hb1 & Hh1 & Hc1 & Hf1).
    { unfold copy_fuel, raw_script. rewrite Hh. lia. }
    rewrite HL. cbn [bind defer fst snd lift_Response].
    destruct (Close_raw r1 h1 Hh1) as (r2 & HC & Hb2 & Hc2 & _).
    rewrite HC. cbn [lift_Response with_File].
    exists r2, (File_Close fd1), (unless_EOF err).
    split; [reflexivity|]. split; [apply unless_EOF_never_EOF|].
    split; [now rewrite Hc2, Hc1|].
    split; [simpl; now rewrite Hf1|].
    split; [intros _; now rewrite Hb2, Hb1|].
    split; [discriminate|].
    intros _ Hc Hclean Hroom.
    rewrite (copyBuffer_ends (bscript (http_Body h)) (copy_fuel r) r fd h)
      in HL; try assumption; try reflexivity.
    + injection HL as <- <- <-. split; reflexivity.
    + unfold copy_fuel. rewrite Hh. lia.
Qed.

Lemma DownloadToFile_closes_both_and_consumes_hello :
  exists r' fd' err,
    DownloadToFile plain_fs "out"%string hello_response
      = Returned (r', Some fd') err /\
    err <> Some io_EOF /\
    raw_closes r' = option_map S (raw_closes hello_response) /\
    fcloses fd' = 1%nat /\
    (internalByteBuffer hello_response = None -> internalByteBuffer r' = None) /\
    (forall b, internalByteBuffer hello_response = Some b ->
               exists rest,
                 internalByteBuffer r' = Some rest /\
                 b = fdata fd' ++ rest /\
                 (err = None -> rest = [])) /\
    (internalByteBuffer hello_response = None ->
     bcloses (http_Body hello_exchange) = O ->
     clean (bscript (http_Body hello_exchange)) ->
     fs_room plain_fs = None ->
     err = None /\ fdata fd' = payload (bscript (http_Body hello_exchange))).
Proof.
  apply (DownloadToFile_closes_both_and_consumes
           plain_fs "out"%string hello_response hello_exchange).
  - reflexivity.
  - reflexivity.
Defined.

(** * Further properties of response.go *)

(** ** Helpers *)

(** A body that fails in the middle of its script, into a file that takes
    everything: the copy returns the error and the file holds what was
    read before. *)
Lemma copyBuffer_stops (pre : list ReadResult) :
  forall (fuel : nat) (r : Response) (fd : File) (h : http_Response)
         (d : list byte) (e : error) (post : list ReadResult),
    RawResponse r = Some h ->
    bcloses (http_Body h) = O ->
    bscript (http_Body h) = pre ++ (d, Some e) :: post ->
    clean pre ->
    froom fd = None ->
    fcloses fd = O ->
    (List.length pre < fuel)%nat ->
    copyBuffer fuel (r, fd) =
      Returned (advanced r h post (S (List.length pre)) O (internalByteBuffer r),
                mkFile (fname fd) (fdata fd ++ payload pre ++ d) None O)
               (unless_EOF (Some e)).
Proof.
  induction pre as [|[d0 e0] pre IH];
    intros fuel r [nm dat room cl] h d e post Hh Hc Hs Hclean Hroom Hcl Hlt;
    simpl in Hroom, Hcl; subst room cl;
    (destruct fuel as [|fuel]; [simpl in Hlt; lia|]).
  - cbn [copyBuffer fst snd]. unfold Read. rewrite Hh.
    unfold Body_Read, Body_next. rewrite Hc, Hs.
    cbn [app http_Body with_Body bscript bclose_err breads bcloses].
    destruct d as [|c d'].
    + cbn [negb Nat.eqb List.length].
      unfold advanced, set_RawResponse, with_Body, payload. simpl.
      rewrite Nat.add_1_r, app_nil_r. reflexivity.
    + unfold File_Write. cbn [fcloses froom fname fdata].
      rewrite Nat.eqb_refl. cbn [negb].
      unfold advanced, set_RawResponse, with_Body, payload. simpl.
      rewrite Nat.add_1_r. reflexivity.
  - inversion Hclean as [|x l He0 Hclean']; subst. simpl in He0. subst e0.
    cbn [copyBuffer fst snd]. unfold Read. rewrite Hh.
    unfold Body_Read, Body_next. rewrite Hc, Hs.
    cbn [app http_Body with_Body bscript bclose_err breads bcloses].
    destruct d0 as [|c d'].
    + cbn [negb Nat.eqb List.length].
      erewrite IH; [| reflexivity | reflexivity | reflexivity | exact Hclean'
                    | reflexivity | reflexivity | simpl in Hlt; lia ].
      unfold advanced, set_RawResponse, with_Body, payload. simpl.
      rewrite !Nat.add_succ_r. reflexivity.
    + unfold File_Write. cbn [fcloses froom fname fdata].
      rewrite Nat.eqb_refl. cbn [negb].
      erewrite IH; [| reflexivity | reflexivity | reflexivity | exact Hclean'
                    | reflexivity | reflexivity | simpl in Hlt; lia ].
      unfold advanced, set_RawResponse, with_Body, payload. simpl.
      rewrite !Nat.add_succ_r, <- ?app_assoc. reflexivity.
Qed.

(** A decoder on the buffer takes bytes off its front and leaves the raw
    response as it is. *)
Lemma Decode_on_buffer (d : Decoder) :
  forall (r : Response) (b : Buffer),
    internalByteBuffer r = Some b ->
    exists r1 err used b',
      Decode d ReaderBuffer r = Returned r1 err /\
      internalByteBuffer r1 = Some b' /\
      b = used ++ b' /\
      RawResponse r1 = RawResponse r.
Proof.
  induction d as [err|n k IH]; intros r b Hb.
  - exists r, err, [], b. repeat split. exact Hb.
  - simpl. rewrite Hb.
    destruct (Buffer_Read b n) as [b1 res] eqn:HB. simpl.
    assert (Hsplit : exists used1, b = used1 ++ b1).
    { unfold Buffer_Read in HB. destruct b as [|c b0].
      - injection HB as <- _. now exists [].
      - injection HB as <- _. exists (firstn n (c :: b0)).
        now rewrite firstn_skipn. }
    destruct Hsplit as [used1 Hsplit].
    destruct (IH (fst res) (snd res) (set_internalByteBuffer r (Some b1)) b1
                 eq_refl) as (r1 & err & used & b' & HD & Hb' & Hu & Hraw).
    exists r1, err, (used1 ++ used), b'. split; [exact HD|].
    split; [exact Hb'|]. split; [|exact Hraw].
    now rewrite <- app_assoc, <- Hu.
Qed.

(** Whatever is run under [defer Close] and passed through the
    [err != io.EOF] test does not return io.EOF. *)
Lemma deferred_unless_EOF (c : Outcome Response (option error)) :
  match defer Close (bind c (fun r' err => Returned r' (unless_EOF err))) with
  | Returned _ err => err <> Some io_EOF
  | _ => True
  end.
Proof.
  destruct c as [r err|r p|]; simpl; [| |exact I].
  - destruct (Close r); try exact I. apply unless_EOF_never_EOF.
  - destruct (Close r); exact I.
Qed.

Lemma Bytes_String_buffered (r : Response) (b : Buffer) :
  internalByteBuffer r = Some b ->
  Bytes r = Returned r b /\ String r = Returned r (string_of_list_byte b).
Proof.
  intro Hb. unfold Bytes, String.
  rewrite (respBytesBuffer_buffered r b Hb). simpl.
  unfold Buffer_Bytes, Buffer_String. rewrite Hb. split; reflexivity.
Qed.

(** Buffering from a body that is closed and refuses to be read: the first
    [Read] reports the body's error, which is returned unless it is
    io.EOF, and an empty buffer stays behind. *)
Lemma respBytesBuffer_closed_body
    (r : Response) (h : http_Response) (c : nat) (e : error) :
  internalByteBuffer r = None ->
  RawResponse r = Some h ->
  bcloses (http_Body h) = S c ->
  bafter_close (http_Body h) = Some e ->
  0 <= http_ContentLength h < 2 ^ 63 ->
  http_ContentLength h <= alloc_limit ->
  exists r1,
    respBytesBuffer r = Returned r1 (passed_on (Some e)) /\
    internalByteBuffer r1 = Some [] /\
    raw_closes r1 = Some (S (S c)).
Proof.
  intros Hb Hh Hc Ha Hcl Hfits. unfold respBytesBuffer. rewrite Hb. simpl.
  rewrite Hh. unfold Buffer_Grow. simpl.
  rewrite int_of_int64_in_range by lia.
  destruct (Z.ltb_spec (http_ContentLength h) 0) as [Hneg|_]; [lia|].
  destruct (Z.ltb_spec alloc_limit (http_ContentLength h)) as [Hbig|_]; [lia|].
  simpl. unfold Buffer_ReadFrom, copy_fuel. simpl. rewrite Hh.
  cbn [ReadFrom_loop]. unfold Read. simpl. rewrite Hh.
  unfold Body_Read. rewrite Hc, Ha. cbn [bind fst snd Buffer_Write].
  cbn [internalByteBuffer set_RawResponse set_internalByteBuffer app].
  destruct e; unfold Close, defer; simpl; unfold raw_closes; simpl;
    (eexists; split; [reflexivity|]; split; reflexivity).
Qed.

Lemma Reader_Read_raw_fixed (rd : Reader) (n : nat) (r r' : Response)
    (res : ReadResult) :
  Reader_Read rd n r = Returned r' res ->
  raw_length r' = raw_length r /\ raw_after_close r' = raw_after_close r.
Proof.
  unfold Reader_Read, Read, raw_length, raw_after_close. destruct rd.
  - destruct (internalByteBuffer r) as [b|]; [|discriminate].
    destruct (Buffer_Read b n). intro H. injection H as <- _. now split.
  - destruct (RawResponse r) as [h|]; [|discriminate].
    unfold Body_Read, Body_next.
    destruct (bcloses (http_Body h));
      [|destruct (bafter_close (http_Body h)) eqn:Ha];
      destruct (bscript (http_Body h));
      intro H; injection H as <- _; simpl; rewrite ?Ha; now split.
Qed.

Lemma Decode_raw_fixed (d : Decoder) :
  forall (rd : Reader) (r r1 : Response) (err : option error),
    Decode d rd r = Returned r1 err ->
    raw_length r1 = raw_length r /\ raw_after_close r1 = raw_after_close r.
Proof.
  induction d as [e|n k IH]; intros rd r r1 err; simpl.
  - intro H. injection H as <- _. now split.
  - destruct (Reader_Read rd n r) as [r' res| |] eqn:HR; simpl;
      try discriminate.
    intro H. destruct (IH _ _ _ _ _ _ H) as [H1 H2].
    destruct (Reader_Read_raw_fixed _ _ _ _ _ HR) as [H3 H4].
    split; congruence.
Qed.

(** ** Construction *)

(** X1.  A Response that [buildResponse] returns carries the error it was
    given and no buffer, and exactly one of the two holds: either the
    error is set and there is no raw response, or the error is nil and the
    raw response is the exchange, with its status code and headers copied.
    The call panics only when both arguments are nil. *)
Theorem buildResponse_error_or_raw
    (resp : option http_Response) (err : option error) :
  match buildResponse resp err with
  | inl r =>
      Error r = err /\
      internalByteBuffer r = None /\
      match err with
      | Some _ => RawResponse r = None
      | None =>
          exists h, resp = Some h /\ RawResponse r = Some h /\
                    StatusCode r = http_StatusCode h /\
                    Header r = http_Header_of h
      end
  | inr p => p = NilDereference /\ resp = None /\ err = None
  end.
Proof.
  destruct err as [e|]; [|destruct resp as [h|]]; simpl.
  - repeat split.
  - split; [reflexivity|]. split; [reflexivity|]. exists h. repeat split.
  - repeat split.
Qed.

(** ** Buffering *)


(** X3.  Once [respBytesBuffer] has gone past its nil-buffer guard on a
    Response with a raw response, the raw body has seen exactly one more
    [Close] when the call is over, on every way out: nil, a read error,
    or a panic of [Grow]; and the buffer is in place. *)
Theorem respBytesBuffer_closes_body_on_every_path
    (r : Response) (h : http_Response) :
  internalByteBuffer r = None ->
  RawResponse r = Some h ->
  exists r' b,
    final_state (respBytesBuffer r) = Some r' /\
    raw_closes r' = option_map S (raw_closes r) /\
    internalByteBuffer r' = Some b.
Proof.
  intros Hb Hh.
  destruct (Z_lt_ge_dec (int_of_int64 (http_ContentLength h)) 0) as [Hneg|Hpos].
  - destruct (respBytesBuffer_negative r h Hb Hh Hneg) as (r' & HP & Hb' & Hc).
    exists r', []. rewrite HP. repeat split; assumption.
  - destruct (Z_lt_ge_dec alloc_limit (int_of_int64 (http_ContentLength h)))
      as [Hbig|Hfits].
    + destruct (respBytesBuffer_too_large r h Hb Hh) as (r' & HP & Hb' & Hc);
        [lia|exact Hbig|].
      exists r', []. rewrite HP. repeat split; assumption.
    + destruct (respBytesBuffer_copies r h Hb Hh) as
          (r3 & err & r4 & b & _ & _ & HR & _ & _ & Hb4 & Hc); [lia|].
      exists r4, b. rewrite HR. repeat split; assumption.
Qed.

(** X4.  However [respBytesBuffer] ends, it leaves a buffer in place, so
    the next call returns nil at once.  After an error return [Bytes]
    hands out what the buffer holds; after a panic (no raw response, or a
    declared length that [Grow] refuses) the buffer is empty, and [Bytes]
    and [String] then return empty results without panicking again. *)
Theorem respBytesBuffer_always_leaves_a_buffer (r : Response) :
  match respBytesBuffer r with
  | Returned r' _ =>
      exists b, internalByteBuffer r' = Some b /\
                respBytesBuffer r' = Returned r' None /\
                Bytes r' = Returned r' b
  | Panicked r' _ =>
      internalByteBuffer r' = Some [] /\
      respBytesBuffer r' = Returned r' None /\
      Bytes r' = Returned r' [] /\
      String r' = Returned r' ""%string
  | OutOfFuel => False
  end.
Proof.
  assert (HP : forall r', internalByteBuffer r' = Some [] ->
             internalByteBuffer r' = Some [] /\
             respBytesBuffer r' = Returned r' None /\
             Bytes r' = Returned r' [] /\
             String r' = Returned r' ""%string).
  { intros r' Hb'. split; [exact Hb'|].
    split; [exact (respBytesBuffer_buffered r' [] Hb')|].
    exact (Bytes_String_buffered r' [] Hb'). }
  assert (HR : forall r' b, internalByteBuffer r' = Some b ->
             exists b, internalByteBuffer r' = Some b /\
                       respBytesBuffer r' = Returned r' None /\
                       Bytes r' = Returned r' b).
  { intros r' b Hb'. exists b. split; [exact Hb'|].
    split; [exact (respBytesBuffer_buffered r' b Hb')|].
    exact (proj1 (Bytes_String_buffered r' b Hb')). }
  destruct (internalByteBuffer r) as [b|] eqn:Hb.
  - rewrite (respBytesBuffer_buffered r b Hb). now apply HR with b.
  - destruct (RawResponse r) as [h|] eqn:Hh.
    + destruct (Z_lt_ge_dec (int_of_int64 (http_ContentLength h)) 0) as [Hneg|Hpos].
      * destruct (respBytesBuffer_negative r h Hb Hh Hneg) as (r' & HN & Hb' & _).
        rewrite HN. now apply HP.
      * destruct (Z_lt_ge_dec alloc_limit (int_of_int64 (http_ContentLength h)))
          as [Hbig|Hfits].
        -- destruct (respBytesBuffer_too_large r h Hb Hh) as (r' & HN & Hb' & _);
             [lia|exact Hbig|].
           rewrite HN. now apply HP.
        -- destruct (respBytesBuffer_copies r h Hb Hh) as
               (r3 & err & r4 & b & _ & _ & HC & _ & _ & Hb4 & _); [lia|].
           rewrite HC. now apply HR with b.
    + rewrite (respBytesBuffer_no_raw r Hb Hh). now apply HP.
Qed.

(** X5.  On a buffered Response whose body is closed (as buffering
    leaves it) and reports an error to every [Read] after [Close], whatever
    that error is, [ClearInternalBuffer] drops the buffer and the data is
    gone for good: the next [respBytesBuffer] gets nothing from the body
    (it returns the body's error, or nil when that is io.EOF), so
    [Bytes] and [String] return empty results, and an empty buffer is
    left in place.  The declared length is one that [Grow] is granted. *)
Theorem ClearInternalBuffer_then_Bytes_is_empty
    (r : Response) (h : http_Response) (b : Buffer) (c : nat) (e : error) :
  internalByteBuffer r = Some b ->
  RawResponse r = Some h ->
  bcloses (http_Body h) = S c ->
  bafter_close (http_Body h) = Some e ->
  0 <= http_ContentLength h < 2 ^ 63 ->
  http_ContentLength h <= alloc_limit ->
  exists r0 r1,
    ClearInternalBuffer r = Returned r0 tt /\
    internalByteBuffer r0 = None /\
    respBytesBuffer r0 = Returned r1 (passed_on (Some e)) /\
    Bytes r0 = Returned r1 [] /\
    String r0 = Returned r1 ""%string /\
    internalByteBuffer r1 = Some [].
Proof.
  intros Hb Hh Hc Ha Hcl Hfits.
  exists (set_internalByteBuffer r None).
  destruct (respBytesBuffer_closed_body (set_internalByteBuffer r None) h c e)
    as (r1 & HR & Hb1 & _); try assumption; try reflexivity.
  exists r1. split.
  { unfold ClearInternalBuffer, Buffer_Reset. rewrite Hb. reflexivity. }
  split; [reflexivity|]. split; [exact HR|].
  unfold Bytes, String. rewrite HR. cbn [bind].
  unfold Buffer_Bytes, Buffer_String. rewrite Hb1.
  destruct (passed_on (Some e)); repeat split; assumption.
Qed.

(** ** Decoding *)

Lemma decode_buffer_then_Close
    (d : Decoder) (r : Response) (h : http_Response) (b : Buffer) :
  internalByteBuffer r = Some b ->
  RawResponse r = Some h ->
  exists r2 err used b',
    defer Close (bind (Decode d (getInternalReader r) r)
                      (fun r' err' => Returned r' (unless_EOF err')))
      = Returned r2 err /\
    internalByteBuffer r2 = Some b' /\
    b = used ++ b' /\
    raw_reads r2 = raw_reads r /\
    raw_script r2 = raw_script r /\
    raw_closes r2 = option_map S (raw_closes r).
Proof.
  intros Hb Hh.
  assert (Hg : getInternalReader r = ReaderBuffer)
    by (unfold getInternalReader; now rewrite Hb).
  rewrite Hg.
  destruct (Decode_on_buffer d r b Hb) as (r1 & err & used & b' & HD & Hb' & Hu & Hraw).
  rewrite HD. cbn [bind defer].
  rewrite Hh in Hraw.
  destruct (Close_raw r1 h Hraw) as (r2 & HC & Hb2 & Hc2 & Hr2 & Hs2).
  rewrite HC.
  exists r2, (unless_EOF err), used, b'. split; [reflexivity|].
  split; [now rewrite Hb2|]. split; [exact Hu|].
  unfold raw_reads, raw_script, raw_closes in *. rewrite Hraw in *.
  rewrite Hh. repeat split; assumption.
Qed.

(** X6.  On a buffer-backed Response [Json] and [Xml] decode from the
    buffer and never read the raw stream: what the body has still to hand
    out and its read count are as before.  The decoder consumes the
    front of the buffer (what it did not read stays), and the raw body is
    closed once more all the same. *)
Theorem Json_Xml_on_buffer_leave_raw_stream
    (XMLCharDecoder : Type)
    (xml_NewDecoder : option XMLCharDecoder -> Decoder)
    (json_NewDecoder : Decoder)
    (charsetReader : option XMLCharDecoder)
    (r : Response) (h : http_Response) (b : Buffer) :
  internalByteBuffer r = Some b ->
  RawResponse r = Some h ->
  (exists r2 err used b',
      Json json_NewDecoder r = Returned r2 err /\
      internalByteBuffer r2 = Some b' /\
      b = used ++ b' /\
      raw_reads r2 = raw_reads r /\
      raw_script r2 = raw_script r /\
      raw_closes r2 = option_map S (raw_closes r)) /\
  (exists r2 err used b',
      Xml XMLCharDecoder xml_NewDecoder charsetReader r = Returned r2 err /\
      internalByteBuffer r2 = Some b' /\
      b = used ++ b' /\
      raw_reads r2 = raw_reads r /\
      raw_script r2 = raw_script r /\
      raw_closes r2 = option_map S (raw_closes r)).
Proof.
  intros Hb Hh. split.
  - exact (decode_buffer_then_Close json_NewDecoder r h b Hb Hh).
  - exact (decode_buffer_then_Close (xml_NewDecoder charsetReader) r h b Hb Hh).
Qed.

Lemma Json_Xml_on_buffer_leave_raw_stream_hello :
  (exists r2 err used b',
      Json one_read_decoder hello_buffered = Returned r2 err /\
      internalByteBuffer r2 = Some b' /\
      bytes_of "hello"%string = used ++ b' /\
      raw_reads r2 = raw_reads hello_buffered /\
      raw_script r2 = raw_script hello_buffered /\
      raw_closes r2 = option_map S (raw_closes hello_buffered)) /\
  (exists r2 err used b',
      Xml unit (fun _ => one_read_decoder) None hello_buffered
        = Returned r2 err /\
      internalByteBuffer r2 = Some b' /\
      bytes_of "hello"%string = used ++ b' /\
      raw_reads r2 = raw_reads hello_buffered /\
      raw_script r2 = raw_script hello_buffered /\
      raw_closes r2 = option_map S (raw_closes hello_buffered)).
Proof.
  apply (Json_Xml_on_buffer_leave_raw_stream
           unit (fun _ => one_read_decoder) one_read_decoder None
           hello_buffered hello_buffered_exchange
           (bytes_of "hello"%string)).
  - reflexivity.
  - reflexivity.
Defined.

Lemma decode_raw_then_Bytes
    (d : Decoder) (r : Response) (h : http_Response) (e : error) :
  internalByteBuffer r = None ->
  RawResponse r = Some h ->
  bafter_close (http_Body h) = Some e ->
  0 <= http_ContentLength h < 2 ^ 63 ->
  http_ContentLength h <= alloc_limit ->
  exists r2 err r3,
    defer Close (bind (Decode d (getInternalReader r) r)
                      (fun r' err' => Returned r' (unless_EOF err')))
      = Returned r2 err /\
    internalByteBuffer r2 = None /\
    Bytes r2 = Returned r3 [] /\
    String r2 = Returned r3 ""%string.
Proof.
  intros Hb Hh Ha Hcl Hfits.
  destruct (Decode_total d r h Hh) as (r1 & err & h1 & HD & Hh1 & _ & Hg1).
  assert (Hb1 : internalByteBuffer r1 = None).
  { unfold getInternalReader in Hg1. rewrite Hb in Hg1.
    destruct (internalByteBuffer r1); [discriminate|reflexivity]. }
  destruct (Decode_raw_fixed _ _ _ _ _ HD) as [Hl Hac].
  unfold raw_length, raw_after_close in Hl, Hac.
  rewrite Hh1, Hh in Hl, Hac. simpl in Hl, Hac.
  injection Hl as Hl. injection Hac as Hac.
  rewrite HD. cbn [bind defer]. unfold Close. rewrite Hh1. simpl.
  set (r2 := set_RawResponse r1 _).
  destruct (respBytesBuffer_closed_body r2 _ (bcloses (http_Body h1)) e
              Hb1 eq_refl eq_refl) as (r3 & HR & Hb3 & _).
  { simpl. now rewrite Hac. }
  { simpl. now rewrite Hl. }
  { simpl. now rewrite Hl. }
  exists r2, (unless_EOF err), r3. split; [reflexivity|].
  split; [exact Hb1|]. unfold Bytes, String. rewrite HR. cbn [bind].
  unfold Buffer_Bytes, Buffer_String. rewrite Hb3.
  destruct (passed_on (Some e)); split; reflexivity.
Qed.

(** X7.  On a raw-backed Response [Json] and [Xml] never create the
    internal buffer, and they leave the body closed; when the body is one
    that reports an error to every [Read] after [Close], whatever that
    error is, the data is out of reach afterwards: [Bytes] and [String]
    return empty results.  The declared length is one that [Grow] is
    granted. *)
Theorem Json_Xml_then_Bytes_is_empty
    (XMLCharDecoder : Type)
    (xml_NewDecoder : option XMLCharDecoder -> Decoder)
    (json_NewDecoder : Decoder)
    (charsetReader : option XMLCharDecoder)
    (r : Response) (h : http_Response) (e : error) :
  internalByteBuffer r = None ->
  RawResponse r = Some h ->
  bafter_close (http_Body h) = Some e ->
  0 <= http_ContentLength h < 2 ^ 63 ->
  http_ContentLength h <= alloc_limit ->
  (exists r2 err r3,
      Json json_NewDecoder r = Returned r2 err /\
      internalByteBuffer r2 = None /\
      Bytes r2 = Returned r3 [] /\
      String r2 = Returned r3 ""%string) /\
  (exists r2 err r3,
      Xml XMLCharDecoder xml_NewDecoder charsetReader r = Returned r2 err /\
      internalByteBuffer r2 = None /\
      Bytes r2 = Returned r3 [] /\
      String r2 = Returned r3 ""%string).
Proof.
  intros Hb Hh Ha Hcl Hfits. split.
  - exact (decode_raw_then_Bytes json_NewDecoder r h e Hb Hh Ha Hcl Hfits).
  - exact (decode_raw_then_Bytes (xml_NewDecoder charsetReader) r h e
             Hb Hh Ha Hcl Hfits).
Qed.

(** ** Downloading *)

(** X8.  When [os.Create] fails, [DownloadToFile] returns its error as it
    is and does nothing else: no file, no [Read], and, unlike every other
    way out of the method, no [Close] of the raw body. *)
Theorem DownloadToFile_create_failure
    (fs : FileSystem) (fileName : string) (r : Response) (e : error) :
  fs_create_err fs fileName = Some e ->
  DownloadToFile fs fileName r = Returned (r, None) (Some e).
Proof.
  intro H. unfold DownloadToFile, os_Create. now rewrite H.
Qed.

Lemma DownloadToFile_create_failure_readonly :
  DownloadToFile readonly_fs "out"%string hello_response
    = Returned (hello_response, None) (Some permission_denied).
Proof.
  apply (DownloadToFile_create_failure
           readonly_fs "out"%string hello_response permission_denied).
  reflexivity.
Defined.

(** X9.  When a [Read] of the raw body fails in the middle of a download
    (into a file that takes every write), [DownloadToFile] returns that
    error, and the file is left behind, closed, holding the bytes that had
    arrived before the failure; the body is closed and no buffer is
    created. *)
Theorem DownloadToFile_read_failure_leaves_partial_file
    (fs : FileSystem) (fileName : string)
    (r : Response) (h : http_Response)
    (pre : list ReadResult) (d : list byte) (e : error)
    (post : list ReadResult) :
  internalByteBuffer r = None ->
  RawResponse r = Some h ->
  bcloses (http_Body h) = O ->
  bscript (http_Body h) = pre ++ (d, Some e) :: post ->
  clean pre ->
  e <> io_EOF ->
  fs_create_err fs fileName = None ->
  fs_room fs = None ->
  DownloadToFile fs fileName r =
    Returned (advanced r h post (S (List.length pre)) 1 None,
              Some (mkFile fileName (payload pre ++ d) None 1))
             (Some e).
Proof.
  intros Hb Hh Hc Hs Hclean He Hcreate Hroom.
  unfold DownloadToFile, os_Create. rewrite Hcreate, Hroom.
  assert (Hg : getInternalReader r = ReaderSelf)
    by (unfold getInternalReader; now rewrite Hb).
  rewrite Hg. cbn [io_Copy_to_File fst].
  rewrite (copyBuffer_stops pre (copy_fuel r) r _ h d e post);
    try assumption; try reflexivity.
  - rewrite (unless_EOF_other e He). cbn [bind].
    rewrite (unless_EOF_other e He). cbn [defer fst snd].
    unfold Close. simpl. rewrite Hb. reflexivity.
  - unfold copy_fuel. rewrite Hh, Hs, length_app. simpl. lia.
Qed.

Lemma DownloadToFile_read_failure_leaves_partial_file_reset :
  DownloadToFile plain_fs "out"%string reset_response =
    Returned (advanced reset_response (mkHttp 200 [] reset_body 5) [] 2 1 None,
              Some (mkFile "out"%string (bytes_of "he"%string) None 1))
             (Some conn_reset).
Proof.
  apply (DownloadToFile_read_failure_leaves_partial_file
           plain_fs "out"%string reset_response (mkHttp 200 [] reset_body 5)
           [(bytes_of "he"%string, None)] [] conn_reset []).
  - reflexivity.
  - reflexivity.
  - reflexivity.
  - reflexivity.
  - repeat constructor.
  - discriminate.
  - reflexivity.
  - reflexivity.
Defined.

(** X10.  On a buffer-backed Response (into a file that takes every
    write) [DownloadToFile] writes exactly the unread bytes of the buffer
    and returns nil, without reading the raw stream; the buffer is empty
    afterwards and the raw body has been closed once more. *)
Theorem DownloadToFile_from_buffer_writes_buffer
    (fs : FileSystem) (fileName : string)
    (r : Response) (h : http_Response) (b : Buffer) :
  internalByteBuffer r = Some b ->
  RawResponse r = Some h ->
  fs_create_err fs fileName = None ->
  fs_room fs = None ->
  exists r',
    DownloadToFile fs fileName r =
      Returned (r', Some (mkFile fileName b None 1)) None /\
    internalByteBuffer r' = Some [] /\
    raw_reads r' = raw_reads r /\
    raw_script r' = raw_script r /\
    raw_closes r' = option_map S (raw_closes r).
Proof.
  intros Hb Hh Hcreate Hroom.
  unfold DownloadToFile, os_Create. rewrite Hcreate, Hroom.
  assert (Hg : getInternalReader r = ReaderBuffer)
    by (unfold getInternalReader; now rewrite Hb).
  rewrite Hg. cbn [io_Copy_to_File]. unfold Buffer_WriteTo. rewrite Hb.
  destruct b as [|c b'].
  - cbn [bind defer fst snd unless_EOF]. unfold Close. rewrite Hh. simpl.
    eexists. split; [reflexivity|]. simpl. rewrite Hb.
    unfold raw_reads, raw_script, raw_closes. rewrite Hh. repeat split.
  - unfold File_Write. cbn [fcloses froom fname fdata app].
    rewrite Nat.eqb_refl. cbn [negb bind defer fst snd unless_EOF].
    unfold Close. simpl. rewrite Hh. simpl.
    eexists. split; [reflexivity|]. simpl.
    unfold raw_reads, raw_script, raw_closes. rewrite Hh. repeat split.
Qed.

Lemma DownloadToFile_from_buffer_writes_buffer_hello :
  exists r',
    DownloadToFile plain_fs "out"%string hello_buffered =
      Returned (r', Some (mkFile "out"%string (bytes_of "hello"%string) None 1))
               None /\
    internalByteBuffer r' = Some [] /\
    raw_reads r' = raw_reads hello_buffered /\
    raw_script r' = raw_script hello_buffered /\
    raw_closes r' = option_map S (raw_closes hello_buffered).
Proof.
  apply (DownloadToFile_from_buffer_writes_buffer
           plain_fs "out"%string hello_buffered
           hello_buffered_exchange (bytes_of "hello"%string)).
  - reflexivity.
  - reflexivity.
  - reflexivity.
  - reflexivity.
Defined.

(** X11.  On a Response without raw response and without buffer (one built
    from a transport error) [DownloadToFile] still creates the file first:
    it then panics with a nil dereference, and leaves the file behind,
    empty and closed. *)
Theorem DownloadToFile_without_raw_creates_then_panics
    (fs : FileSystem) (fileName : string) (r : Response) :
  RawResponse r = None ->
  internalByteBuffer r = None ->
  fs_create_err fs fileName = None ->
  DownloadToFile fs fileName r =
    Panicked (r, Some (mkFile fileName [] (fs_room fs) 1)) NilDereference.
Proof.
  intros Hh Hb Hcreate.
  unfold DownloadToFile, os_Create. rewrite Hcreate.
  assert (Hg : getInternalReader r = ReaderSelf)
    by (unfold getInternalReader; now rewrite Hb).
  rewrite Hg. cbn [io_Copy_to_File fst]. unfold copy_fuel. rewrite Hh.
  cbn [copyBuffer fst snd]. unfold Read. rewrite Hh.
  cbn [bind defer fst snd]. unfold Close. rewrite Hh. reflexivity.
Qed.

Lemma DownloadToFile_without_raw_creates_then_panics_failed :
  DownloadToFile plain_fs "out"%string failed_response =
    Panicked (failed_response, Some (mkFile "out"%string [] None 1))
             NilDereference.
Proof.
  apply (DownloadToFile_without_raw_creates_then_panics
           plain_fs "out"%string failed_response).
  - reflexivity.
  - reflexivity.
  - reflexivity.
Defined.

(** X14.  On a raw-backed Response whose body is already closed (after
    [Json], [Xml] or an earlier download) and reports an error to every
    [Read] after [Close], [DownloadToFile] still creates the file: it is
    left empty and closed, the body is closed once more, and the result is
    the body's error, or nil when that error is io.EOF. *)
Theorem DownloadToFile_after_close_leaves_empty_file
    (fs : FileSystem) (fileName : string)
    (r : Response) (h : http_Response) (c : nat) (e : error) :
  internalByteBuffer r = None ->
  RawResponse r = Some h ->
  bcloses (http_Body h) = S c ->
  bafter_close (http_Body h) = Some e ->
  fs_create_err fs fileName = None ->
  exists r',
    DownloadToFile fs fileName r =
      Returned (r', Some (mkFile fileName [] (fs_room fs) 1))
               (passed_on (Some e)) /\
    internalByteBuffer r' = None /\
    raw_script r' = raw_script r /\
    raw_closes r' = Some (S (S c)).
Proof.
  intros Hb Hh Hc Ha Hcreate.
  unfold DownloadToFile, os_Create. rewrite Hcreate.
  assert (Hg : getInternalReader r = ReaderSelf)
    by (unfold getInternalReader; now rewrite Hb).
  rewrite Hg. cbn [io_Copy_to_File fst]. unfold copy_fuel. rewrite Hh.
  cbn [copyBuffer fst snd]. unfold Read. rewrite Hh.
  unfold Body_Read. rewrite Hc, Ha.
  cbn [negb Nat.eqb List.length bind]. rewrite unless_EOF_idem.
  rewrite unless_EOF_passed_on. cbn [defer fst snd].
  unfold Close. simpl.
  eexists. split; [reflexivity|]. simpl.
  unfold raw_script, raw_closes. simpl. rewrite Hb, Hh. repeat split.
Qed.

Lemma DownloadToFile_after_close_leaves_empty_file_not_found :
  exists r',
    DownloadToFile plain_fs "out"%string not_found_closed =
      Returned (r', Some (mkFile "out"%string [] (fs_room plain_fs) 1))
               (passed_on (Some io_EOF)) /\
    internalByteBuffer r' = None /\
    raw_script r' = raw_script not_found_closed /\
    raw_closes r' = Some 2%nat.
Proof.
  apply (DownloadToFile_after_close_leaves_empty_file
           plain_fs "out"%string not_found_closed
           not_found_closed_exchange O io_EOF).
  - reflexivity.
  - reflexivity.
  - reflexivity.
  - reflexivity.
  - reflexivity.
Defined.

(** ** Across the accessors *)

(** X12.  On the Response [buildResponse] makes from a transport error,
    every body accessor panics with a nil dereference instead of
    returning an empty result or an error: [Bytes], [String], [Json] and
    [Xml], whatever the decoder.  [Bytes] and [String] leave an empty buffer
    behind. *)
Theorem accessors_panic_after_transport_error
    (XMLCharDecoder : Type)
    (xml_NewDecoder : option XMLCharDecoder -> Decoder)
    (json_NewDecoder : Decoder)
    (charsetReader : option XMLCharDecoder)
    (resp : option http_Response) (e : error) :
  exists r r',
    buildResponse resp (Some e) = inl r /\
    Bytes r = Panicked r' NilDereference /\
    String r = Panicked r' NilDereference /\
    internalByteBuffer r' = Some [] /\
    Json json_NewDecoder r = Panicked r NilDereference /\
    Xml XMLCharDecoder xml_NewDecoder charsetReader r
      = Panicked r NilDereference.
Proof.
  eexists _, _. split; [reflexivity|].
  split; [reflexivity|]. split; [reflexivity|]. split; [reflexivity|].
  split.
  - apply Json_without_raw_panics; reflexivity.
  - apply (Json_without_raw_panics (xml_NewDecoder charsetReader));
      reflexivity.
Qed.

(** X13.  [respBytesBuffer], [Json] and [Xml] never return io.EOF as
    their error, whatever the body and the decoder do. *)
Theorem io_EOF_is_never_returned
    (XMLCharDecoder : Type)
    (xml_NewDecoder : option XMLCharDecoder -> Decoder)
    (json_NewDecoder : Decoder)
    (charsetReader : option XMLCharDecoder)
    (r : Response) :
  match respBytesBuffer r with
  | Returned _ err => err <> Some io_EOF
  | _ => True
  end /\
  match Json json_NewDecoder r with
  | Returned _ err => err <> Some io_EOF
  | _ => True
  end /\
  match Xml XMLCharDecoder xml_NewDecoder charsetReader r with
  | Returned _ err => err <> Some io_EOF
  | _ => True
  end.
Proof.
  split; [|split].
  - destruct (internalByteBuffer r) as [b|] eqn:Hb.
    + rewrite (respBytesBuffer_buffered r b Hb). discriminate.
    + destruct (RawResponse r) as [h|] eqn:Hh.
      * destruct (Z_lt_ge_dec (int_of_int64 (http_ContentLength h)) 0)
          as [Hneg|Hpos].
        -- destruct (respBytesBuffer_negative r h Hb Hh Hneg) as (r' & HN & _).
           now rewrite HN.
        -- destruct (Z_lt_ge_dec alloc_limit
                       (int_of_int64 (http_ContentLength h))) as [Hbig|Hfits].
           ++ destruct (respBytesBuffer_too_large r h Hb Hh) as (r' & HN & _);
                [lia|exact Hbig|].
              now rewrite HN.
           ++ destruct (respBytesBuffer_copies r h Hb Hh) as
                  (r3 & err & r4 & b & _ & _ & HC & _); [lia|].
              rewrite HC. apply unless_EOF_never_EOF.
      * now rewrite (respBytesBuffer_no_raw r Hb Hh).
  - apply deferred_unless_EOF.
  - apply deferred_unless_EOF.
Qed.

End Allocator.

(** * The properties at the sample exchanges

    The instances below run on a machine that grants [sample_limit]. *)

Example String_hello :
  String sample_limit hello_response = Returned hello_buffered "hello"%string.
Proof. vm_compute. reflexivity. Qed.

Example Bytes_hello_length :
  match Bytes sample_limit hello_response with
  | Returned _ b => List.length b = 5%nat
  | _ => False
  end.
Proof. vm_compute. reflexivity. Qed.

Lemma respBytesBuffer_failure_keeps_partial_reset :
  respBytesBuffer sample_limit reset_response
    = Returned reset_after (Some conn_reset) /\
  respBytesBuffer sample_limit reset_after = Returned reset_after None /\
  Bytes sample_limit reset_after
    = Returned reset_after (bytes_of "he"%string).
Proof.
  apply (respBytesBuffer_failure_keeps_partial
           sample_limit reset_response (mkHttp 200 [] reset_body 5)
           [(bytes_of "he"%string, None)] [] conn_reset []).
  - reflexivity.
  - reflexivity.
  - simpl. lia.
  - unfold sample_limit. simpl. lia.
  - reflexivity.
  - reflexivity.
  - repeat constructor.
  - discriminate.
Defined.

(** C2, the claim as stated fails: after the failed copy of
    [reset_response] the buffer is not nil, and the next call reports
    success over the two bytes that had arrived. *)
Lemma respBytesBuffer_partial_bytes_survive :
  respBytesBuffer sample_limit reset_response
    = Returned reset_after (Some conn_reset) /\
  internalByteBuffer reset_after <> None /\
  respBytesBuffer sample_limit reset_after = Returned reset_after None /\
  Bytes sample_limit reset_after
    = Returned reset_after (bytes_of "he"%string).
Proof.
  split; [vm_compute; reflexivity|].
  split; [discriminate|].
  split; vm_compute; reflexivity.
Qed.

Lemma respBytesBuffer_idempotent_hello :
  (exists b, internalByteBuffer hello_buffered = Some b) /\
  respBytesBuffer sample_limit hello_buffered = Returned hello_buffered None.
Proof.
  apply (respBytesBuffer_idempotent sample_limit hello_response hello_buffered).
  vm_compute. reflexivity.
Defined.

Lemma negative_ContentLength_panics_chunked :
  exists r',
    respBytesBuffer sample_limit chunked_response
      = Panicked r' GrowNegativeCount /\
    Bytes sample_limit chunked_response = Panicked r' GrowNegativeCount /\
    String sample_limit chunked_response = Panicked r' GrowNegativeCount.
Proof.
  apply (negative_ContentLength_panics
           sample_limit chunked_response (mkHttp 200 [] hello_body (-1))).
  - reflexivity.
  - reflexivity.
  - simpl. lia.
Defined.

(** C8, the claim as stated fails: a download from the buffered
    [hello_buffered] leaves its internal buffer empty, and [Bytes], which
    gave the five bytes before, gives none afterwards. *)
Lemma DownloadToFile_drains_the_buffer :
  DownloadToFile plain_fs "out"%string hello_buffered
    = Returned (hello_drained, Some out_file) None /\
  internalByteBuffer hello_drained <> internalByteBuffer hello_buffered /\
  Bytes sample_limit hello_buffered
    = Returned hello_buffered (bytes_of "hello"%string) /\
  Bytes sample_limit hello_drained = Returned hello_drained [].
Proof.
  split; [vm_compute; reflexivity|].
  split; [discriminate|].
  split; vm_compute; reflexivity.
Qed.


Lemma respBytesBuffer_closes_body_on_every_path_chunked :
  exists r' b,
    final_state (respBytesBuffer sample_limit chunked_response) = Some r' /\
    raw_closes r' = option_map S (raw_closes chunked_response) /\
    internalByteBuffer r' = Some b.
Proof.
  apply (respBytesBuffer_closes_body_on_every_path
           sample_limit chunked_response (mkHttp 200 [] hello_body (-1))).
  - reflexivity.
  - reflexivity.
Defined.

Lemma ClearInternalBuffer_then_Bytes_is_empty_hello :
  exists r0 r1,
    ClearInternalBuffer hello_buffered = Returned r0 tt /\
    internalByteBuffer r0 = None /\
    respBytesBuffer sample_limit r0
      = Returned r1 (passed_on (Some errReadOnClosedResBody)) /\
    Bytes sample_limit r0 = Returned r1 [] /\
    String sample_limit r0 = Returned r1 ""%string /\
    internalByteBuffer r1 = Some [].
Proof.
  apply (ClearInternalBuffer_then_Bytes_is_empty
           sample_limit hello_buffered hello_buffered_exchange
           (bytes_of "hello"%string) O errReadOnClosedResBody).
  - reflexivity.
  - reflexivity.
  - reflexivity.
  - reflexivity.
  - simpl. lia.
  - unfold sample_limit. simpl. lia.
Defined.

Lemma Json_Xml_then_Bytes_is_empty_hello :
  (exists r2 err r3,
      Json one_read_decoder hello_response = Returned r2 err /\
      internalByteBuffer r2 = None /\
      Bytes sample_limit r2 = Returned r3 [] /\
      String sample_limit r2 = Returned r3 ""%string) /\
  (exists r2 err r3,
      Xml unit (fun _ => one_read_decoder) None hello_response
        = Returned r2 err /\
      internalByteBuffer r2 = None /\
      Bytes sample_limit r2 = Returned r3 [] /\
      String sample_limit r2 = Returned r3 ""%string).
Proof.
  apply (Json_Xml_then_Bytes_is_empty
           sample_limit unit (fun _ => one_read_decoder) one_read_decoder None
           hello_response hello_exchange errReadOnClosedResBody).
  - reflexivity.
  - reflexivity.
  - reflexivity.
  - simpl. lia.
  - unfold sample_limit. simpl. lia.
Defined.
